(** * postgres_dump_to_sqlite: the dialect rewriter and the statement executor

    A shallow embedding of [convert_to_sqlite.py].

    Text is a [string] whose characters are code points below 256.  Files are
    their contents: the input file is a text, the output file is the text
    written to it so far.  The writer of the output file may buffer: how much
    of the written text is in the file when the source reads it back (line
    88) is a parameter of the model.  Exceptions that the source does not
    catch are results [Raise e], which end the run. *)

From Stdlib Require Import String Ascii List Bool Arith Lia.
Import ListNotations.
Open Scope string_scope.

(* ================================================================== *)
(** ** Python's [str] operations used by the source *)

Module PyStr.

(** The line feed. *)
Definition nl_char : ascii := "010"%char.
Definition nl : string := String nl_char "".

(** [str.isspace] on one character: what [str.strip()] removes. *)
Definition is_space (c : ascii) : bool :=
  let n := nat_of_ascii c in
  (((9 <=? n) && (n <=? 13)) || ((28 <=? n) && (n <=? 32))
   || (n =? 133) || (n =? 160))%nat.

(** The class [\w] of [re] on a [str] pattern: alphanumeric or underscore. *)
Definition is_word (c : ascii) : bool :=
  let n := nat_of_ascii c in
  (((48 <=? n) && (n <=? 57)) || ((65 <=? n) && (n <=? 90))
   || (n =? 95) || ((97 <=? n) && (n <=? 122))
   || (n =? 170) || (n =? 178) || (n =? 179) || (n =? 181)
   || (n =? 185) || (n =? 186) || ((188 <=? n) && (n <=? 190))
   || ((192 <=? n) && (n <=? 214)) || ((216 <=? n) && (n <=? 246))
   || (248 <=? n))%nat.

Definition is_empty (s : string) : bool :=
  match s with "" => true | String _ _ => false end.

(** [s.startswith(p)] *)
Fixpoint startswith (p s : string) : bool :=
  match p with
  | "" => true
  | String a p' =>
      match s with
      | "" => false
      | String b s' => Ascii.eqb a b && startswith p' s'
      end
  end.

(** [s.endswith(p)] *)
Fixpoint endswith (p s : string) : bool :=
  String.eqb s p ||
  match s with
  | "" => false
  | String _ s' => endswith p s'
  end.

(** [p in s] *)
Fixpoint contains (p s : string) : bool :=
  startswith p s ||
  match s with
  | "" => false
  | String _ s' => contains p s'
  end.

Fixpoint lstrip (s : string) : string :=
  match s with
  | "" => ""
  | String c s' => if is_space c then lstrip s' else s
  end.

Fixpoint rstrip (s : string) : string :=
  match s with
  | "" => ""
  | String c s' =>
      let r := rstrip s' in
      if is_space c && is_empty r then "" else String c r
  end.

(** [s.strip()] *)
Definition strip (s : string) : string := rstrip (lstrip s).

(** ["".join(l)] *)
Definition join (l : list string) : string :=
  fold_right String.append "" l.

(** The lines of a text that holds no carriage return, each with its line
    feed (the last one may lack it). *)
Fixpoint readlines (s : string) : list string :=
  match s with
  | "" => []
  | String c s' =>
      if Ascii.eqb c nl_char then String c "" :: readlines s'
      else match readlines s' with
           | [] => [String c ""]
           | l :: ls => String c l :: ls
           end
  end.

(** What a file opened in text mode hands to its reader: a carriage
    return, alone or before a line feed, is read as a line feed. *)
Definition cr_char : ascii := "013"%char.

Fixpoint universal_newlines (s : string) : string :=
  match s with
  | "" => ""
  | String c s' =>
      if Ascii.eqb c cr_char then
        match s' with
        | String d _ =>
            if Ascii.eqb d nl_char then universal_newlines s'
            else String nl_char (universal_newlines s')
        | "" => String nl_char ""
        end
      else String c (universal_newlines s')
  end.

(** The lines that iterating over a file of content [text] yields. *)
Definition file_lines (text : string) : list string :=
  readlines (universal_newlines text).

(** One left-to-right pass of [str.replace] or [re.sub] for a pattern that
    matches texts of one fixed width [width > 0].  [m prev s] tells whether
    the pattern matches at the head of [s], [prev] being the character before
    it; [skip] counts the characters of a match still to be passed over. *)
Fixpoint sub_scan (m : option ascii -> string -> bool) (width : nat)
    (repl : string) (prev : option ascii) (skip : nat) (s : string) : string :=
  match s with
  | "" => ""
  | String c s' =>
      match skip with
      | S k => sub_scan m width repl (Some c) k s'
      | O =>
          if m prev s
          then repl ++ sub_scan m width repl (Some c) (width - 1) s'
          else String c (sub_scan m width repl (Some c) 0 s')
      end
  end.

(** [s.replace(old, new)], and [re.sub] of a literal pattern, for a
    non-empty [old]. *)
Definition replace (old new s : string) : string :=
  sub_scan (fun _ t => startswith old t) (String.length old) new None 0 s.

(** [s[:n]] and [s[n:]] *)
Fixpoint take (n : nat) (s : string) : string :=
  match n, s with
  | S n', String c s' => String c (take n' s')
  | _, _ => ""
  end.

Fixpoint drop (n : nat) (s : string) : string :=
  match n, s with
  | S n', String _ s' => drop n' s'
  | _, _ => s
  end.

(** The text after the prefix [p], when [s] starts with it. *)
Fixpoint strip_prefix (p s : string) : option string :=
  match p with
  | "" => Some s
  | String a p' =>
      match s with
      | "" => None
      | String b s' => if Ascii.eqb a b then strip_prefix p' s' else None
      end
  end.

End PyStr.

(* ================================================================== *)
(** ** The regular expressions of the source *)

Module Re.
Import PyStr.

Definition is_word_opt (c : option ascii) : bool :=
  match c with Some a => is_word a | None => false end.

(** [(?<!\w)index(?!\w)] at the head of [s], after the character [prev]. *)
Definition index_word (prev : option ascii) (s : string) : bool :=
  negb (is_word_opt prev) && startswith "index" s
  && negb (is_word_opt (String.get 5 s)).

(** The longest run of word characters at the head of [s], and the rest. *)
Fixpoint span_word (s : string) : string * string :=
  match s with
  | "" => ("", "")
  | String c s' =>
      if is_word c
      then let (w, r) := span_word s' in (String c w, r)
      else ("", s)
  end.

(** [(.*?)\)] at the head of [s]: the text before the first [)], which no
    line feed may precede. *)
Fixpoint until_close (s : string) : option string :=
  match s with
  | "" => None
  | String c s' =>
      if Ascii.eqb c ")"%char then Some ""
      else if Ascii.eqb c nl_char then None
      else option_map (String c) (until_close s')
  end.

(** [re.search]: the match at the leftmost position that has one. *)
Fixpoint search {A : Type} (m : string -> option A) (s : string) : option A :=
  match m s with
  | Some x => Some x
  | None =>
      match s with
      | "" => None
      | String _ s' => search m s'
      end
  end.

(** [CREATE TABLE (\w+)] at the head of [s]; the group.  The greedy [\w+]
    is the last item of the pattern, so it takes the whole run. *)
Definition create_table_at (s : string) : option string :=
  match strip_prefix "CREATE TABLE " s with
  | None => None
  | Some r =>
      let (w, _) := span_word r in
      if is_empty w then None else Some w
  end.

(** [ALTER TABLE (\w+) ADD CONSTRAINT \w+ PRIMARY KEY \((.*?)\)] at the head
    of [s]; the two groups.  Each [\w+] is followed by a space, which is no
    word character, so only the whole run of word characters can match. *)
Definition alter_pkey_at (s : string) : option (string * string) :=
  match strip_prefix "ALTER TABLE " s with
  | None => None
  | Some r1 =>
      let (table, r2) := span_word r1 in
      if is_empty table then None else
      match strip_prefix " ADD CONSTRAINT " r2 with
      | None => None
      | Some r3 =>
          let (name, r4) := span_word r3 in
          if is_empty name then None else
          match strip_prefix " PRIMARY KEY (" r4 with
          | None => None
          | Some r5 => option_map (fun cols => (table, cols)) (until_close r5)
          end
      end
  end.

End Re.

(* ================================================================== *)
(** ** Results of code that may raise *)

Inductive result (E A : Type) : Type :=
| Ok (a : A)
| Raise (e : E).
Arguments Ok {E A} a.
Arguments Raise {E A} e.

Definition bind {E A B : Type} (r : result E A) (k : A -> result E B)
  : result E B :=
  match r with
  | Ok a => k a
  | Raise e => Raise e
  end.

(** A [for] loop over [l] whose body may raise. *)
Fixpoint for_each {E S A : Type} (body : S -> A -> result E S) (st : S)
    (l : list A) : result E S :=
  match l with
  | [] => Ok st
  | x :: rest => bind (body st x) (fun st' => for_each body st' rest)
  end.

(* ================================================================== *)
(** ** The dialect rewriter: [convert_postgres_to_sqlite] *)

Module Rewriter.
Import PyStr.

(** The built-in exceptions the rewriter can raise. *)
Inductive exn : Type :=
| AttributeError   (* [.group(1)] on the [None] of a failed [re.search] *)
| TypeError.       (* [next(lines)] on the list [readlines()] returned *)

(** [rename_index_column] *)
Definition rename_index_column (line : string) : string :=
  sub_scan Re.index_word 5 "_index" None 0 line.

(** Lines 41 to 50: the rewrites applied to every line that is kept. *)
Definition strip_schema (line : string) : string :=
  replace "public." "" line.

Definition replace_types (line : string) : string :=
  replace "bigint" "INTEGER"
    (replace "integer" "INTEGER"
      (replace "SERIAL" "INTEGER PRIMARY KEY AUTOINCREMENT" line)).

Definition rewrite_line (line : string) : string :=
  rename_index_column (replace_types (strip_schema line)).

(** A [dict] from table names to lists of lines, in insertion order. *)
Definition dict : Type := list (string * list string).

(** [d[k] = v]: an existing key keeps its place. *)
Fixpoint dict_set (d : dict) (k : string) (v : list string) : dict :=
  match d with
  | [] => [(k, v)]
  | (k', v') :: d' =>
      if String.eqb k' k then (k', v) :: d'
      else (k', v') :: dict_set d' k v
  end.

(** [d[k]], for a key of [d]. *)
Fixpoint dict_get (d : dict) (k : string) : list string :=
  match d with
  | [] => []
  | (k', v') :: d' => if String.eqb k' k then v' else dict_get d' k
  end.

(** [del d[k]] *)
Definition dict_del (d : dict) (k : string) : dict :=
  filter (fun kv => negb (String.eqb (fst kv) k)) d.

(** [list(d.keys())[-1]], for a non-empty [d]. *)
Fixpoint last_key (d : dict) : option string :=
  match d with
  | [] => None
  | [(k, _)] => Some k
  | _ :: d' => last_key d'
  end.

Definition is_empty_dict (d : dict) : bool :=
  match d with [] => true | _ :: _ => false end.

(** [d[k].append(line)] *)
Definition dict_append (d : dict) (k : string) (line : string) : dict :=
  dict_set d k (dict_get d k ++ [line]).

Record state : Type := mkState {
  create_table_statements : dict;
  alter_table_buffer : string;
  outfile : string              (* what has been written to [output_file] *)
}.

Definition init : state := mkState [] "" "".

Definition write (st : state) (text : string) : state :=
  mkState (create_table_statements st) (alter_table_buffer st)
          (outfile st ++ text).

(** Lines 92 to 102: the loop that copies [lines] to the reopened output
    file.  [lines] is a list, so [next(lines)] at line 97 raises [TypeError]
    as soon as the [while] is entered; the rest of the [while] body, the only
    use of [columns], is never run. *)
Fixpoint rewrite_output (table_name columns : string) (lines : list string)
    (written : string) : result exn string :=
  match lines with
  | [] => Ok written
  | temp_line :: rest =>
      if startswith ("CREATE TABLE " ++ table_name) (strip temp_line) then
        let written := written ++ temp_line in
        if negb (endswith ");" (strip temp_line)) then Raise TypeError
        else rewrite_output table_name columns rest written
      else rewrite_output table_name columns rest (written ++ temp_line)
  end.

Section WithWriter.

(** [flushed text] is the number of characters that have left the buffer
    of [outfile] and are in the output file when [text] has been written:
    all of them for a writer that does not buffer. *)
Variable flushed : string -> nat.

(** Lines 83 to 103: the accumulated ALTER TABLE statement is complete.
    The output file, which holds no carriage return since the lines written
    to it come from [file_lines], is read, and written anew through a
    second handle;
    [outfile] goes on behind the text it had flushed, which is the text
    written anew when the loop copied all it read. *)
Definition end_of_alter (st : state) (buffer : string) : result exn state :=
  match Re.search Re.alter_pkey_at buffer with
  | Some (table_name, columns) =>
      let n := flushed (outfile st) in
      bind (rewrite_output table_name columns
              (readlines (take n (outfile st))) "")
        (fun text =>
           Ok (mkState (create_table_statements st) ""
                       (text ++ drop n (outfile st))))
  | None => Ok (mkState (create_table_statements st) "" (outfile st))
  end.

(** Line 38: the commands that only PostgreSQL has. *)
Definition is_directive (line : string) : bool :=
  startswith "SET " line || startswith "SELECT pg_catalog.set_config" line.

(** Line 53: the table options that only PostgreSQL has. *)
Definition has_table_option (line : string) : bool :=
  contains "WITH (" line || contains "OIDS=" line.

(** The body of the loop over the input lines (lines 37 to 114). *)
Definition step (st : state) (line : string) : result exn state :=
  if is_directive line then Ok st
  else
  let line := rewrite_line line in
  if has_table_option line then Ok st
  else if startswith "CREATE TABLE" (strip line) then
    match Re.search Re.create_table_at line with
    | None => Raise AttributeError
    | Some table_name =>
        Ok (mkState (dict_set (create_table_statements st) table_name [line])
                    (alter_table_buffer st) (outfile st))
    end
  else
  let d := create_table_statements st in
  if startswith ");" (strip line) && negb (is_empty_dict d) then
    match last_key d with
    | None => Ok st           (* [d] is not empty here *)
    | Some table_name =>
        let d := dict_append d table_name line in
        Ok (mkState (dict_del d table_name) (alter_table_buffer st)
                    (outfile st ++ join (dict_get d table_name)))
    end
  else if negb (is_empty_dict d) then
    match last_key d with
    | None => Ok st           (* [d] is not empty here *)
    | Some table_name =>
        Ok (mkState (dict_append d table_name line) (alter_table_buffer st)
                    (outfile st))
    end
  else if startswith "ALTER TABLE" (strip line)
          || negb (is_empty (alter_table_buffer st)) then
    let buffer :=
      if negb (is_empty (alter_table_buffer st))
      then alter_table_buffer st ++ " " ++ strip line
      else strip line in
    if contains ";" line then end_of_alter st buffer
    else Ok (mkState d buffer (outfile st))
  else if startswith "CREATE INDEX" line then
    Ok (write st (replace " USING btree" "" line ++ nl))
  else Ok (write st line).

(** The whole conversion: the text of the output file, or the exception
    that ends the run. *)
Definition convert_lines (lines : list string) : result exn state :=
  for_each step init lines.

Definition convert_postgres_to_sqlite (input : string) : result exn string :=
  bind (convert_lines (file_lines input)) (fun st => Ok (outfile st)).

End WithWriter.

End Rewriter.

(* ================================================================== *)
(** ** The statement executor: [import_to_sqlite] *)

Module Executor.
Import PyStr.

(** The exception classes of [sqlite3] a statement can fail with, each with
    its message.  They are siblings under [sqlite3.DatabaseError]: a
    constraint violation is an [IntegrityError], which is no
    [OperationalError]. *)
Inductive sqlite_error : Type :=
| OperationalError (detail : string)
| IntegrityError (detail : string)
| ProgrammingError (detail : string).

Definition command_keywords : list string :=
  ["CREATE TABLE"; "INSERT INTO"; "ADD CONSTRAINT"; "CREATE INDEX"].

(** Line 144: empty lines and comments, on the trimmed line. *)
Definition is_skipped (line : string) : bool :=
  is_empty line || startswith "--" line || startswith "/*" line.

(** Line 148: the trimmed line starts with a command keyword. *)
Definition starts_command (line : string) : bool :=
  existsb (fun keyword => startswith keyword line) command_keywords.

(** What lines 154 and 166 print. *)
Definition error_report (command detail : string) : string :=
  "Error executing command: " ++ command ++ nl ++ "Error: " ++ detail.

(** The lines the loop works on: trimmed, without the empty lines and the
    comments. *)
Definition worked_lines (lines : list string) : list string :=
  filter (fun line => negb (is_skipped line)) (map strip lines).

(** The texts that such lines make up: each line with a space behind it,
    a new text beginning with every line that starts with a command
    keyword.  [current] is the text that precedes [lines]. *)
Fixpoint accumulated (current : string) (lines : list string) : list string :=
  match lines with
  | [] => [current]
  | line :: rest =>
      if starts_command line
      then current :: accumulated (line ++ " ") rest
      else accumulated (current ++ (line ++ " ")) rest
  end.

(** The texts of a whole file. *)
Definition statements (lines : list string) : list string :=
  match worked_lines lines with
  | [] => []
  | line :: rest => accumulated (line ++ " ") rest
  end.

Section WithStore.

(** The database behind the connection: [execute conn command] is the
    database after [cursor.execute(command)], or the exception it raises,
    which leaves the database as it was. *)
Variable Store : Type.
Variable execute : Store -> string -> result sqlite_error Store.

(** The wall-clock rate report of lines 169 to 173, and [command_count],
    which feeds nothing else, are left out. *)
Record state : Type := mkState {
  current_command : string;
  conn : Store;
  stdout : list string
}.

(** The [try] statement of lines 150 to 155, and of lines 162 to 167. *)
Definition execute_current (st : state) : result sqlite_error state :=
  match execute (conn st) (current_command st) with
  | Ok db => Ok (mkState "" db (stdout st))
  | Raise (OperationalError e) =>
      Ok (mkState "" (conn st)
                  (stdout st ++ [error_report (current_command st) e]))
  | Raise e => Raise e
  end.

(** The body of the loop over the lines of the file (lines 143 to 167). *)
Definition step (st : state) (line : string) : result sqlite_error state :=
  let line := strip line in
  if is_skipped line then Ok st
  else
  bind (if starts_command line && negb (is_empty (current_command st))
        then execute_current st else Ok st)
    (fun st =>
       let st := mkState (current_command st ++ (line ++ " "))
                         (conn st) (stdout st) in
       if endswith ";" (current_command st) then execute_current st
       else Ok st).

Definition import_lines (db : Store) (lines : list string)
  : result sqlite_error state :=
  for_each step (mkState "" db []) lines.

(** [import_to_sqlite], from the open connection on. *)
Definition import_to_sqlite (db : Store) (sql : string)
  : result sqlite_error state :=
  bind (execute db "PRAGMA journal_mode=WAL;")
    (fun db => import_lines db (file_lines sql)).

(** The statements of a file one after the other, as the amended reading
    of the error handling has it: a statement that the database takes
    changes the database; one that fails with [OperationalError] is
    reported with its text and the database's message, leaves the database
    as it was, and the next one is tried; one that fails with an exception
    of another class ends the import with that exception. *)
Fixpoint try_each (db : Store) (out : list string) (commands : list string)
  : result sqlite_error (Store * list string) :=
  match commands with
  | [] => Ok (db, out)
  | command :: rest =>
      match execute db command with
      | Ok db' => try_each db' out rest
      | Raise (OperationalError detail) =>
          try_each db (out ++ [error_report command detail]) rest
      | Raise e => Raise e
      end
  end.

End WithStore.

Arguments mkState {Store} current_command conn stdout.
Arguments current_command {Store} s.
Arguments conn {Store} s.
Arguments stdout {Store} s.
Arguments execute_current {Store} execute st.
Arguments step {Store} execute st line.
Arguments import_lines {Store} execute db lines.
Arguments import_to_sqlite {Store} execute db sql.
Arguments try_each {Store} execute db out commands.

(** A database that only records the statements it is given. *)
Definition recording : list string -> string -> result sqlite_error (list string) :=
  fun db command => Ok (db ++ [command])%list.

(** A database with one table [t] of one integer primary-key column: it
    holds the texts of the rows inserted, and a second insertion of a row
    violates the key. *)
Definition keyed : list string -> string -> result sqlite_error (list string) :=
  fun db command =>
    if startswith "INSERT INTO t VALUES " command then
      if existsb (String.eqb command) db
      then Raise (IntegrityError "UNIQUE constraint failed: t.id")
      else Ok (db ++ [command])%list
    else Raise (OperationalError "near: syntax error").


End Executor.

(* ================================================================== *)
(** ** Vocabulary of the proofs about substitution passes *)

Module Scan.
Import PyStr.

(** [a] and [b] differ at a position both have. *)
Fixpoint mismatch (a b : string) : bool :=
  match a, b with
  | String x a', String y b' => negb (Ascii.eqb x y) || mismatch a' b'
  | _, _ => false
  end.

(** Every non-empty tail of [a] differs from [b]: no occurrence of [a] can
    begin before a copy of [b] and run into it. *)
Fixpoint tails_mismatch (a b : string) : bool :=
  match a with
  | "" => true
  | String _ a' => mismatch a b && tails_mismatch a' b
  end.

(** [p] differs from every non-empty tail of [r]: no occurrence of [p] can
    begin inside a copy of [r]. *)
Fixpoint mismatch_tails (p r : string) : bool :=
  match r with
  | "" => true
  | String _ r' => mismatch p r && mismatch_tails p r'
  end.

(** No occurrence of [p] can touch a copy of [r]. *)
Definition apart (p r : string) : bool :=
  negb (is_empty p) && tails_mismatch p r && mismatch_tails p r.

(** The pattern [m] matches at no position of [s], which follows [prev]. *)
Fixpoint no_match (m : option ascii -> string -> bool) (prev : option ascii)
    (s : string) : bool :=
  match s with
  | "" => true
  | String c s' => negb (m prev s) && no_match m (Some c) s'
  end.

(** Wherever [m] does not match in [s], [p] does not start. *)
Fixpoint tails_ok (m : option ascii -> string -> bool) (p s : string) : Prop :=
  (forall prev, m prev s = false -> startswith p s = false) /\
  match s with
  | "" => True
  | String _ s' => tails_ok m p s'
  end.

End Scan.

(* ================================================================== *)
(** ** Vocabulary of the statements about the rewriter *)

Module Terms.
Import PyStr Rewriter.

(** [rename_index_column] from the middle of a line, after [prev]. *)
Definition rename_from (prev : option ascii) (s : string) : string :=
  sub_scan Re.index_word 5 "_index" prev 0 s.

Definition keys (d : dict) : list string := map fst d.

(** No line of the output opens the definition of [table_name]. *)
Definition absent (table_name : string) (lines : list string) : bool :=
  forallb (fun l => negb (startswith ("CREATE TABLE " ++ table_name) (strip l)))
          lines.

(** A writer that does not buffer, and one that keeps everything until the
    file is closed. *)
Definition unbuffered : string -> nat := String.length.
Definition fully_buffered : string -> nat := fun _ => 0.

(** The table definition of the specification's example, and what the
    rewriter emits for it. *)
Definition create_t : list string :=
  ["CREATE TABLE t (" ++ nl; "  id SERIAL," ++ nl; "  name text" ++ nl;
   ");" ++ nl].

Definition emitted_t : string :=
  "CREATE TABLE t (" ++ nl ++ "  id INTEGER PRIMARY KEY AUTOINCREMENT," ++ nl
  ++ "  name text" ++ nl ++ ");" ++ nl.

Definition alter_t : string :=
  "ALTER TABLE t ADD CONSTRAINT t_pkey PRIMARY KEY (id);" ++ nl.

(** The double quote. *)
Definition dq : string := String "034"%char "".

(** The text made of [pieces], each followed by [clause], and of [last]. *)
Fixpoint with_clause (clause : string) (pieces : list string) (last : string)
  : string :=
  match pieces with
  | [] => last
  | piece :: rest => piece ++ clause ++ with_clause clause rest last
  end.

(** None of [pieces] holds [clause]. *)
Definition clause_free (clause : string) (pieces : list string) : bool :=
  forallb (fun piece => negb (contains clause piece)) pieces.

(** A state in which the definition of [t] is pending. *)
Definition pending_t : state :=
  mkState [("t", ["CREATE TABLE t (" ++ nl])] "" "".

End Terms.

(* ================================================================== *)
(** ** Vocabulary of the statements about whole runs *)

Module Lines.
Import PyStr Rewriter.

(** The line passes the two filters of lines 38 and 53. *)
Definition kept (line : string) : bool :=
  negb (is_directive line) && negb (has_table_option (rewrite_line line)).

(** The tests of lines 57, 62 and 77, on the line as rewritten. *)
Definition opens_table (line : string) : bool :=
  startswith "CREATE TABLE" (strip (rewrite_line line)).

Definition closes_table (line : string) : bool :=
  startswith ");" (strip (rewrite_line line)).

Definition starts_alter (line : string) : bool :=
  startswith "ALTER TABLE" (strip (rewrite_line line)).

(** A line that is dropped, or that starts neither a table definition nor
    an ALTER TABLE statement. *)
Definition plain (line : string) : bool :=
  negb (kept line) || (negb (opens_table line) && negb (starts_alter line)).

(** What a line adds to the output when nothing is pending (lines 106 to
    114). *)
Definition emitted (line : string) : string :=
  if negb (kept line) then ""
  else if startswith "CREATE INDEX" (rewrite_line line)
       then replace " USING btree" "" (rewrite_line line) ++ nl
       else rewrite_line line.

(** The last character of [s], or [default] when [s] is empty. *)
Fixpoint last_char (s : string) (default : option ascii) : option ascii :=
  match s with
  | "" => default
  | String c s' => last_char s' (Some c)
  end.

(** A text of word characters only. *)
Fixpoint all_word (s : string) : bool :=
  match s with
  | "" => true
  | String c s' => is_word c && all_word s'
  end.

(** A line inside a table definition: kept, and neither opening nor closing
    one. *)
Definition inner (line : string) : bool :=
  kept line && negb (opens_table line) && negb (closes_table line).

(** The executor counts this line as the start of a command. *)
Definition command_line (line : string) : bool :=
  negb (Executor.is_skipped (strip line))
  && Executor.starts_command (strip line).

Definition is_operational (e : Executor.sqlite_error) : bool :=
  match e with
  | Executor.OperationalError _ => true
  | _ => false
  end.

End Lines.

(* ================================================================== *)
(** * Facts about the string operations *)

Module StrFacts.
Import PyStr.

Lemma append_nil_r (s : string) : s ++ "" = s.
Proof. induction s as [|c s IH]; simpl; [reflexivity | now rewrite IH]. Qed.

Lemma append_assoc (a b c : string) : (a ++ b) ++ c = a ++ (b ++ c).
Proof. induction a as [|x a IH]; simpl; [reflexivity | now rewrite IH]. Qed.

Lemma startswith_app (p r : string) : startswith p (p ++ r) = true.
Proof.
  induction p as [|a p IH]; simpl; [reflexivity|].
  now rewrite Ascii.eqb_refl, IH.
Qed.

Lemma startswith_split (p s : string) :
  startswith p s = true -> exists r, s = p ++ r.
Proof.
  revert s; induction p as [|a p IH]; intros s H.
  - now exists s.
  - destruct s as [|b s]; simpl in H; [discriminate|].
    apply andb_true_iff in H as [Hab Hp].
    apply Ascii.eqb_eq in Hab; subst b.
    destruct (IH _ Hp) as [r ->]. now exists r.
Qed.

Lemma startswith_nil_r (p : string) : startswith p "" = true -> p = "".
Proof. destruct p; simpl; [reflexivity | discriminate]. Qed.

Lemma contains_tail (p : string) (c : ascii) (s : string) :
  contains p (String c s) = false -> contains p s = false.
Proof. simpl; intros H; now apply orb_false_iff in H. Qed.

Lemma contains_head (p s : string) :
  contains p s = false -> startswith p s = false.
Proof. destruct s; simpl; intros H; now apply orb_false_iff in H. Qed.

Lemma take_drop (n : nat) (s : string) : take n s ++ drop n s = s.
Proof.
  revert s; induction n as [|n IH]; intros [|c s]; simpl; try reflexivity.
  now rewrite IH.
Qed.

Lemma join_readlines (s : string) : join (readlines s) = s.
Proof.
  induction s as [|c s IH]; simpl; [reflexivity|].
  destruct (Ascii.eqb c nl_char).
  - simpl. now rewrite IH.
  - destruct (readlines s) as [|l ls]; simpl in *.
    + now rewrite <- IH.
    + now rewrite <- IH.
Qed.

(** What is read from a file holds no carriage return. *)
Lemma universal_newlines_no_cr (s : string) :
  contains (String cr_char "") (universal_newlines s) = false.
Proof.
  induction s as [|c s IH]; [reflexivity|].
  cbn [universal_newlines]. destruct (Ascii.eqb c cr_char) eqn:E.
  - destruct s as [|d t]; [reflexivity|].
    destruct (Ascii.eqb d nl_char); [exact IH|].
    cbn [contains startswith]. rewrite IH. reflexivity.
  - cbn [contains startswith]. rewrite IH.
    rewrite Ascii.eqb_sym, E. reflexivity.
Qed.

(** A text without carriage return is read as it is. *)
Lemma universal_newlines_plain (s : string) :
  contains (String cr_char "") s = false -> universal_newlines s = s.
Proof.
  induction s as [|c s IH]; intros H; [reflexivity|].
  cbn [universal_newlines].
  pose proof (contains_head _ _ H) as Hc. cbn [startswith] in Hc.
  rewrite andb_true_r, Ascii.eqb_sym in Hc. rewrite Hc.
  now rewrite (IH (contains_tail _ _ _ H)).
Qed.

(** A text to which a space was appended does not end with a semicolon. *)
Lemma endswith_space (s : string) : endswith ";" (s ++ " ") = false.
Proof.
  induction s as [|c s IH]; [reflexivity|].
  change (String c s ++ " ") with (String c (s ++ " ")).
  cbn [endswith]. rewrite IH, orb_false_r.
  destruct s as [|d s]; simpl.
  - destruct (Ascii.eqb c ";"); reflexivity.
  - destruct (Ascii.eqb c ";"); reflexivity.
Qed.

End StrFacts.

(* ================================================================== *)
(** * Facts about one substitution pass *)

Module ScanFacts.
Import PyStr Scan StrFacts.

Lemma mismatch_startswith (a b y : string) :
  mismatch a b = true -> startswith a (b ++ y) = false.
Proof.
  revert b; induction a as [|x a IH]; intros [|c b] H; simpl in *;
    try discriminate.
  destruct (Ascii.eqb x c); simpl in *; [now apply IH | reflexivity].
Qed.

Lemma contains_repl (p r y : string) :
  mismatch_tails p r = true -> contains p y = false ->
  contains p (r ++ y) = false.
Proof.
  intros Hr Hy; induction r as [|c r IH]; [exact Hy|].
  cbn [mismatch_tails] in Hr. apply andb_true_iff in Hr as [Hm Hr].
  change (String c r ++ y) with (String c (r ++ y)).
  cbn [contains]. rewrite (IH Hr), orb_false_r.
  exact (mismatch_startswith _ (String c r) y Hm).
Qed.

Section Pass.

Variable m : option ascii -> string -> bool.
Variable width : nat.
Variable repl : string.

Let pass := sub_scan m width repl.

Lemma pass_copy (prev : option ascii) (c : ascii) (s : string) :
  m prev (String c s) = false ->
  pass prev 0 (String c s) = String c (pass (Some c) 0 s).
Proof. intros H; unfold pass; simpl; now rewrite H. Qed.

Lemma pass_match (prev : option ascii) (c : ascii) (s : string) :
  m prev (String c s) = true ->
  pass prev 0 (String c s) = repl ++ pass (Some c) (width - 1) s.
Proof. intros H; unfold pass; simpl; now rewrite H. Qed.

(** Where the pass finds nothing it copies. *)
Lemma pass_no_match (s : string) :
  forall prev, no_match m prev s = true -> pass prev 0 s = s.
Proof.
  induction s as [|c s IH]; intros prev H; [reflexivity|].
  simpl in H. apply andb_true_iff in H as [Hm Hs].
  apply negb_true_iff in Hm.
  rewrite (pass_copy _ _ _ Hm). now rewrite (IH _ Hs).
Qed.

(** A text that cannot run into a replacement and starts the output also
    starts the input. *)
Lemma startswith_pass_back (s : string) :
  forall q prev, tails_mismatch q repl = true ->
    startswith q (pass prev 0 s) = true -> startswith q s = true.
Proof.
  induction s as [|c s IH]; intros q prev Hq H; [exact H|].
  destruct q as [|x q]; [reflexivity|].
  cbn [tails_mismatch] in Hq. apply andb_true_iff in Hq as [Hx Hq].
  destruct (m prev (String c s)) eqn:Hm.
  - rewrite (pass_match _ _ _ Hm) in H.
    now rewrite (mismatch_startswith _ _ _ Hx) in H.
  - rewrite (pass_copy _ _ _ Hm) in H. simpl in H |- *.
    apply andb_true_iff in H as [Hc H].
    rewrite Hc. exact (IH _ _ Hq H).
Qed.

(** The output holds no occurrence of [p], when no occurrence of [p] can
    touch a replacement and the input has none where the pass copies. *)
Lemma pass_free (p : string) :
  apart p repl = true ->
  forall s prev skip, tails_ok m p s ->
    contains p (pass prev skip s) = false.
Proof.
  intros Hap.
  unfold apart in Hap.
  apply andb_true_iff in Hap as [Hap Hin].
  apply andb_true_iff in Hap as [Hne Hout].
  induction s as [|c s IH]; intros prev skip [Hhd Htl].
  - destruct p; [discriminate | reflexivity].
  - destruct skip as [|k]; [| exact (IH _ _ Htl)].
    destruct (m prev (String c s)) eqn:Hm.
    + rewrite (pass_match _ _ _ Hm).
      apply contains_repl; [exact Hin | exact (IH _ _ Htl)].
    + rewrite (pass_copy _ _ _ Hm).
      cbn [contains]. rewrite (IH _ _ Htl), orb_false_r.
      destruct (startswith p (String c (pass (Some c) 0 s))) eqn:Hp;
        [| reflexivity].
      rewrite <- (pass_copy _ _ _ Hm) in Hp.
      apply (startswith_pass_back _ _ _ Hout) in Hp.
      now rewrite (Hhd _ Hm) in Hp.
Qed.

End Pass.

Lemma tails_ok_free (m : option ascii -> string -> bool) (p s : string) :
  contains p s = false -> tails_ok m p s.
Proof.
  induction s as [|c s IH]; intros H.
  - split; [intros _ _; exact (contains_head _ _ H) | exact I].
  - split; [intros _ _; exact (contains_head _ _ H)|].
    apply IH. exact (contains_tail _ _ _ H).
Qed.

Lemma tails_ok_self (old s : string) :
  tails_ok (fun _ t => startswith old t) old s.
Proof.
  induction s as [|c s IH]; (split; [intros _ H; exact H|]);
    [exact I | exact IH].
Qed.

Lemma no_match_free (old s : string) :
  forall prev, contains old s = false ->
    no_match (fun _ t => startswith old t) prev s = true.
Proof.
  induction s as [|c s IH]; intros prev H; [reflexivity|].
  cbn [no_match]. rewrite (contains_head _ _ H). simpl.
  apply IH. exact (contains_tail _ _ _ H).
Qed.

(** [str.replace] leaves no occurrence of what it replaces, when the
    replacement is apart from it. *)
Lemma replace_removes (old new s : string) :
  apart old new = true -> contains old (replace old new s) = false.
Proof.
  intros H. unfold replace.
  apply (pass_free _ _ _ _ H). apply tails_ok_self.
Qed.

(** [str.replace] creates no occurrence of a text apart from the
    replacement. *)
Lemma replace_keeps_free (p old new s : string) :
  apart p new = true -> contains p s = false ->
  contains p (replace old new s) = false.
Proof.
  intros H Hs. unfold replace.
  apply (pass_free _ _ _ _ H). now apply tails_ok_free.
Qed.

(** [str.replace] copies a text that holds nothing to replace. *)
Lemma replace_absent (old new s : string) :
  contains old s = false -> replace old new s = s.
Proof.
  intros H. unfold replace.
  apply pass_no_match. now apply no_match_free.
Qed.

End ScanFacts.

(* ================================================================== *)
(** * Facts about [rename_index_column] *)

Module RenameFacts.
Import PyStr Scan Terms StrFacts ScanFacts Rewriter.

Lemma index_word_head (prev : option ascii) (c : ascii) (s : string) :
  Re.index_word prev (String c s) = true -> c = "i"%char.
Proof.
  unfold Re.index_word. intros H.
  apply andb_true_iff in H as [H _]. apply andb_true_iff in H as [_ H].
  cbn [startswith] in H. apply andb_true_iff in H as [H _].
  apply Ascii.eqb_eq in H. now subst c.
Qed.

Lemma index_word_after_word (prev : option ascii) (s : string) :
  Re.is_word_opt prev = true -> Re.index_word prev s = false.
Proof. intros H. unfold Re.index_word. now rewrite H. Qed.

Lemma index_word_other (prev : option ascii) (c : ascii) (s : string) :
  c <> "i"%char -> Re.index_word prev (String c s) = false.
Proof.
  intros Hc. destruct (Re.index_word prev (String c s)) eqn:H;
    [| reflexivity].
  now apply index_word_head in H.
Qed.

(** What a match of the pattern looks like. *)
Lemma index_word_inv (prev : option ascii) (s : string) :
  Re.index_word prev s = true ->
  Re.is_word_opt prev = false /\
  exists rest, s = "index" ++ rest /\
               Re.is_word_opt (String.get 0 rest) = false.
Proof.
  unfold Re.index_word. intros H.
  apply andb_true_iff in H as [H Hn]. apply andb_true_iff in H as [Hp Hs].
  apply negb_true_iff in Hp, Hn. split; [exact Hp|].
  destruct (startswith_split _ _ Hs) as [rest ->].
  exists rest. split; [reflexivity | exact Hn].
Qed.

(** A match is replaced and the pass goes on behind it. *)
Lemma rename_from_match (prev : option ascii) (rest : string) :
  Re.index_word prev ("index" ++ rest) = true ->
  rename_from prev ("index" ++ rest) = "_index" ++ rename_from (Some "x"%char) rest.
Proof.
  intros H. unfold rename_from.
  change ("index" ++ rest)
    with (String "i" (String "n" (String "d" (String "e" (String "x" rest))))) in *.
  cbn [sub_scan]. rewrite H. reflexivity.
Qed.

(** An occurrence that is not matched is copied with what follows it. *)
Lemma rename_from_index_copy (prev : option ascii) (w : ascii) (rest : string) :
  Re.index_word prev ("index" ++ String w rest) = false ->
  rename_from prev ("index" ++ String w rest)
  = "index" ++ String w (rename_from (Some w) rest).
Proof.
  intros H. unfold rename_from.
  change ("index" ++ String w rest)
    with (String "i" (String "n" (String "d" (String "e" (String "x" (String w rest)))))) in *.
  rewrite (pass_copy _ _ _ _ _ _ H).
  rewrite !pass_copy; try (apply index_word_other; discriminate).
  - reflexivity.
  - apply index_word_after_word. reflexivity.
Qed.

(** The output of the renaming holds no match of the pattern. *)
Lemma rename_from_no_match (n : nat) :
  forall s prev, String.length s <= n ->
    no_match Re.index_word prev (rename_from prev s) = true.
Proof.
  induction n as [|n IH]; intros s prev Hlen.
  - destruct s; [reflexivity | simpl in Hlen; lia].
  - destruct s as [|c s]; [reflexivity|].
    destruct (Re.index_word prev (String c s)) eqn:Hm.
    + destruct (index_word_inv _ _ Hm) as [Hprev [rest [Hs Hnext]]].
      rewrite Hs in Hm |- *. rewrite (rename_from_match _ _ Hm).
      assert (Hrest : String.length rest <= n).
      { apply (f_equal String.length) in Hs. simpl in Hs, Hlen. lia. }
      change ("_index" ++ rename_from (Some "x"%char) rest)
        with (String "_" (String "i" (String "n" (String "d" (String "e"
                (String "x" (rename_from (Some "x"%char) rest))))))).
      cbn [no_match].
      rewrite (IH _ _ Hrest).
      rewrite !index_word_other by discriminate.
      rewrite index_word_after_word by reflexivity.
      reflexivity.
    + unfold rename_from at 1. rewrite (pass_copy _ _ _ _ _ _ Hm).
      fold (rename_from (Some c) s).
      cbn [no_match]. rewrite IH by (simpl in Hlen; lia).
      rewrite andb_true_r. apply negb_true_iff.
      destruct (Re.index_word prev (String c (rename_from (Some c) s)))
        eqn:Hout; [| reflexivity].
      exfalso.
      assert (Hcopy : rename_from prev (String c s)
                      = String c (rename_from (Some c) s)).
      { unfold rename_from. now rewrite (pass_copy _ _ _ _ _ _ Hm). }
      rewrite <- Hcopy in Hout.
      destruct (index_word_inv _ _ Hout) as [Hprev [rest' [Hs' Hnext']]].
      assert (Hin : startswith "index" (String c s) = true).
      { apply (startswith_pass_back Re.index_word 5 "_index" _ "index" prev);
          [reflexivity|].
        fold (rename_from prev (String c s)). rewrite Hs'.
        apply startswith_app. }
      destruct (startswith_split _ _ Hin) as [rest Hs].
      rewrite Hs in Hm, Hs'.
      unfold Re.index_word in Hm. rewrite Hprev, startswith_app in Hm.
      simpl in Hm. apply negb_false_iff in Hm.
      destruct rest as [|w rest]; [discriminate|]. simpl in Hm.
      assert (Hm' : Re.index_word prev ("index" ++ String w rest) = false).
      { unfold Re.index_word. rewrite Hprev, startswith_app. simpl.
        now rewrite Hm. }
      rewrite (rename_from_index_copy _ _ _ Hm') in Hs'.
      injection Hs' as Hs'. subst rest'. simpl in Hnext'. congruence.
Qed.

(** Renaming twice is renaming once. *)
Lemma rename_idempotent (s : string) :
  rename_index_column (rename_index_column s) = rename_index_column s.
Proof.
  unfold rename_index_column.
  apply pass_no_match.
  exact (rename_from_no_match _ s None (le_n _)).
Qed.

(** The renaming creates no occurrence of a text apart from [_index]. *)
Lemma rename_keeps_free (p s : string) :
  apart p "_index" = true -> contains p s = false ->
  contains p (rename_index_column s) = false.
Proof.
  intros H Hs. unfold rename_index_column.
  apply (pass_free _ _ _ _ H). now apply tails_ok_free.
Qed.

End RenameFacts.

(* ================================================================== *)
(** * The dictionary of pending table definitions *)

Module DictFacts.
Import Rewriter Terms.
Local Open Scope list_scope.

Lemma last_key_snoc (d : dict) (k : string) (v : list string) :
  last_key (d ++ [(k, v)]) = Some k.
Proof.
  induction d as [|[k' v'] d IH]; [reflexivity|].
  simpl. rewrite IH. destruct (d ++ [(k, v)]) eqn:E; [| reflexivity].
  now destruct d.
Qed.

Lemma dict_get_snoc (d : dict) (k : string) (v : list string) :
  ~ In k (keys d) -> dict_get (d ++ [(k, v)]) k = v.
Proof.
  induction d as [|[k' v'] d IH]; intros H; simpl.
  - now rewrite String.eqb_refl.
  - destruct (String.eqb k' k) eqn:E.
    + apply String.eqb_eq in E. subst. exfalso. apply H. now left.
    + apply IH. intros Hin. apply H. now right.
Qed.

Lemma dict_set_snoc (d : dict) (k : string) (v w : list string) :
  ~ In k (keys d) -> dict_set (d ++ [(k, v)]) k w = d ++ [(k, w)].
Proof.
  induction d as [|[k' v'] d IH]; intros H; simpl.
  - now rewrite String.eqb_refl.
  - destruct (String.eqb k' k) eqn:E.
    + apply String.eqb_eq in E. subst. exfalso. apply H. now left.
    + f_equal. apply IH. intros Hin. apply H. now right.
Qed.

Lemma dict_del_snoc (d : dict) (k : string) (v : list string) :
  ~ In k (keys d) -> dict_del (d ++ [(k, v)]) k = d.
Proof.
  induction d as [|[k' v'] d IH]; intros H; simpl.
  - now rewrite String.eqb_refl.
  - destruct (String.eqb k' k) eqn:E; simpl.
    + apply String.eqb_eq in E. subst. exfalso. apply H. now left.
    + f_equal. apply IH. intros Hin. apply H. now right.
Qed.

Lemma keys_dict_set (d : dict) (k : string) (v : list string) :
  keys (dict_set d k v) = if existsb (String.eqb k) (keys d)
                          then keys d else keys d ++ [k].
Proof.
  induction d as [|[k' v'] d IH]; [reflexivity|].
  simpl. rewrite (String.eqb_sym k k').
  destruct (String.eqb k' k); simpl; [reflexivity|].
  rewrite IH. now destruct (existsb (String.eqb k) (keys d)).
Qed.

Lemma dict_set_nodup (d : dict) (k : string) (v : list string) :
  NoDup (keys d) -> NoDup (keys (dict_set d k v)).
Proof.
  intros H. rewrite keys_dict_set.
  destruct (existsb (String.eqb k) (keys d)) eqn:E; [exact H|].
  assert (Hk : ~ In k (keys d)).
  { intros Hin.
    assert (existsb (String.eqb k) (keys d) = true); [| congruence].
    apply existsb_exists. exists k. split; [exact Hin | apply String.eqb_refl]. }
  clear E. induction (keys d) as [|a l IH]; simpl.
  - constructor; [easy | constructor].
  - inversion H as [|? ? Ha Hl]; subst.
    constructor.
    + intros Hin. apply in_app_or in Hin as [Hin | [<- | []]];
        [now apply Ha | apply Hk; now left].
    + apply IH; [exact Hl | intros Hin; apply Hk; now right].
Qed.

Lemma dict_del_nodup (d : dict) (k : string) :
  NoDup (keys d) -> NoDup (keys (dict_del d k)).
Proof.
  induction d as [|[k' v'] d IH]; intros H; [constructor|].
  inversion H as [|? ? Hk Hd]; subst.
  unfold dict_del in *. simpl.
  destruct (String.eqb k' k); simpl; [now apply IH|].
  constructor; [| now apply IH].
  intros Hin. apply Hk. unfold keys in *.
  apply in_map_iff in Hin as [[k1 v1] [<- Hin]].
  apply filter_In in Hin as [Hin _].
  apply in_map_iff. now exists (k1, v1).
Qed.

End DictFacts.

(* ================================================================== *)
(** * Writing the output file back *)

Module RewriterFacts.
Import PyStr Scan Terms StrFacts ScanFacts RenameFacts Rewriter.

(** The loop of lines 92 to 102 inserts nothing: it raises, or it writes
    back the lines it read. *)
Lemma rewrite_output_copies (table_name columns : string) (lines : list string) :
  forall written text,
    rewrite_output table_name columns lines written = Ok text ->
    text = written ++ join lines.
Proof.
  induction lines as [|l lines IH]; intros written text H;
    cbn [rewrite_output] in H.
  - injection H as <-. simpl. now rewrite append_nil_r.
  - destruct (startswith ("CREATE TABLE " ++ table_name) (strip l)).
    + destruct (endswith ");" (strip l)); cbn [negb] in H; [| discriminate].
      rewrite (IH _ _ H). cbn [join fold_right]. now rewrite append_assoc.
    + rewrite (IH _ _ H). cbn [join fold_right]. now rewrite append_assoc.
Qed.

Lemma rewrite_output_absent (table_name columns : string) (lines : list string) :
  forall written, absent table_name lines = true ->
    rewrite_output table_name columns lines written
    = Ok (written ++ join lines).
Proof.
  induction lines as [|l lines IH]; intros written H;
    cbn [rewrite_output join fold_right].
  - now rewrite append_nil_r.
  - cbn [absent forallb] in H. apply andb_true_iff in H as [Hl H].
    apply negb_true_iff in Hl. rewrite Hl, (IH _ H).
    now rewrite append_assoc.
Qed.

Lemma rewrite_output_raises (table_name columns : string) (lines : list string) :
  forall written e,
    rewrite_output table_name columns lines written = Raise e -> e = TypeError.
Proof.
  induction lines as [|l lines IH]; intros written e H;
    cbn [rewrite_output] in H; [discriminate|].
  destruct (startswith ("CREATE TABLE " ++ table_name) (strip l)).
  - destruct (endswith ");" (strip l)); cbn [negb] in H.
    + exact (IH _ _ H).
    + now injection H as <-.
  - exact (IH _ _ H).
Qed.

Section WithWriter.

Variable flushed : string -> nat.

(** A completed ALTER TABLE statement never changes the output file: when
    the step does not raise, it has only emptied the buffer. *)
Lemma end_of_alter_keeps_output (st st' : state) (buffer : string) :
  end_of_alter flushed st buffer = Ok st' ->
  st' = mkState (create_table_statements st) "" (outfile st).
Proof.
  unfold end_of_alter.
  destruct (Re.search Re.alter_pkey_at buffer) as [[t cols]|].
  - destruct (rewrite_output t cols _ "") as [text|e] eqn:E;
      cbn [bind]; intros H; [| discriminate].
    injection H as <-. f_equal.
    apply rewrite_output_copies in E.
    change ("" ++ join (readlines (take (flushed (outfile st)) (outfile st))))
      with (join (readlines (take (flushed (outfile st)) (outfile st)))) in E.
    rewrite join_readlines in E. subst text. apply take_drop.
  - intros H. now injection H as <-.
Qed.

(** The only exception of the step is the one of [next(lines)]. *)
Lemma end_of_alter_raises (st : state) (buffer : string) (e : exn) :
  end_of_alter flushed st buffer = Raise e -> e = TypeError.
Proof.
  unfold end_of_alter.
  destruct (Re.search Re.alter_pkey_at buffer) as [[t cols]|];
    [| discriminate].
  destruct (rewrite_output t cols _ "") as [text|e'] eqn:E;
    cbn [bind]; intros H; [discriminate|].
  injection H as <-. exact (rewrite_output_raises _ _ _ _ _ E).
Qed.

(** The statement is dropped without a trace when it is no primary-key
    constraint, and when the output holds no definition of its table. *)
Lemma end_of_alter_dropped (st : state) (buffer : string) :
  match Re.search Re.alter_pkey_at buffer with
  | None => True
  | Some (table_name, _) =>
      absent table_name
        (readlines (take (flushed (outfile st)) (outfile st))) = true
  end ->
  end_of_alter flushed st buffer
  = Ok (mkState (create_table_statements st) "" (outfile st)).
Proof.
  unfold end_of_alter.
  destruct (Re.search Re.alter_pkey_at buffer) as [[t cols]|]; intros H;
    [| reflexivity].
  rewrite (rewrite_output_absent _ _ _ _ H). cbn [bind].
  change ("" ++ join (readlines (take (flushed (outfile st)) (outfile st))))
    with (join (readlines (take (flushed (outfile st)) (outfile st)))).
  now rewrite join_readlines, take_drop.
Qed.

End WithWriter.


(** ** More on trimming and replacing *)

Lemma startswith_app_l (p a b : string) :
  startswith p a = true -> startswith p (a ++ b) = true.
Proof.
  intros H. destruct (startswith_split _ _ H) as [r ->].
  rewrite append_assoc. apply startswith_app.
Qed.

Lemma is_empty_app (a b : string) :
  is_empty b = false -> is_empty (a ++ b) = false.
Proof. now destruct a. Qed.

Lemma rstrip_app (a b : string) :
  is_empty (rstrip b) = false -> rstrip (a ++ b) = a ++ rstrip b.
Proof.
  intros H. induction a as [|c a IH]; [reflexivity|].
  change (String c a ++ b) with (String c (a ++ b)).
  cbn [rstrip]. rewrite IH, (is_empty_app _ _ H), andb_false_r.
  reflexivity.
Qed.

Lemma rstrip_cons (c : ascii) (s : string) :
  is_space c = false -> rstrip (String c s) = String c (rstrip s).
Proof. intros H. cbn [rstrip]. now rewrite H. Qed.

(** Trimming a line that starts with [CREATE INDEX] keeps that start. *)
Lemma strip_create_index (line : string) :
  startswith "CREATE INDEX" line = true ->
  exists r, strip line = "CREATE INDEX" ++ r.
Proof.
  intros H. destruct (startswith_split _ _ H) as [r ->].
  exists (rstrip r). unfold strip.
  change (lstrip ("CREATE INDEX" ++ r)) with ("CREATE INDEX" ++ r).
  change ("CREATE INDEX" ++ r) with ("CREATE INDE" ++ String "X" r).
  rewrite rstrip_app; rewrite rstrip_cons by reflexivity; reflexivity.
Qed.

Section ReplaceOnce.

Variable x : ascii.
Variables q new : string.
Let old : string := String x q.
Let m : option ascii -> string -> bool := fun _ t => startswith old t.
Let pass := sub_scan m (String.length old) new.

Lemma pass_prev (s : string) :
  forall prev prev' skip, pass prev skip s = pass prev' skip s.
Proof.
  induction s as [|c s IH]; intros prev prev' skip; [reflexivity|].
  unfold pass; cbn [sub_scan]. destruct skip; [| apply IH].
  change (m prev (String c s)) with (startswith old (String c s)).
  change (m prev' (String c s)) with (startswith old (String c s)).
  destruct (startswith old (String c s)); reflexivity.
Qed.

Lemma pass_skip (t rest : string) :
  forall prev, pass prev (String.length t) (t ++ rest) = pass None 0 rest.
Proof.
  induction t as [|c t IH]; intros prev; [apply pass_prev|].
  exact (IH (Some c)).
Qed.

Lemma startswith_before (rest : string) (a : string) :
  forall t, tails_mismatch t old = true ->
    startswith t (a ++ old ++ rest) = true -> startswith t a = true.
Proof.
  induction a as [|c a IH]; intros [|y t] Ht H; try reflexivity.
  - cbn [tails_mismatch] in Ht. apply andb_true_iff in Ht as [Hy _].
    change ("" ++ old ++ rest) with (old ++ rest) in H.
    now rewrite (mismatch_startswith _ _ _ Hy) in H.
  - cbn [tails_mismatch] in Ht. apply andb_true_iff in Ht as [_ Ht].
    change (String c a ++ old ++ rest) with (String c (a ++ old ++ rest)) in H.
    cbn [startswith] in H |- *.
    apply andb_true_iff in H as [Hc H]. rewrite Hc. exact (IH _ Ht H).
Qed.

(** The first occurrence of a text that cannot overlap itself is replaced,
    and the pass goes on behind it. *)
Lemma replace_first (pre rest : string) :
  tails_mismatch q old = true ->
  contains old pre = false ->
  replace old new (pre ++ old ++ rest) = pre ++ new ++ replace old new rest.
Proof.
  intros Hq. unfold replace. fold m. fold pass.
  generalize (@None ascii) at 1.
  induction pre as [|c pre IH]; intros prev Hpre.
  - change ("" ++ old ++ rest) with (String x (q ++ rest)).
    assert (Hm : m prev (String x (q ++ rest)) = true)
      by apply (startswith_app old rest).
    unfold pass. rewrite (pass_match _ _ _ _ _ _ Hm). fold pass.
    change (String.length old - 1) with (String.length q - 0).
    rewrite Nat.sub_0_r. now rewrite pass_skip.
  - change (String c pre ++ old ++ rest) with (String c (pre ++ old ++ rest)).
    assert (Hm : m prev (String c (pre ++ old ++ rest)) = false).
    { unfold m. destruct (startswith old (String c (pre ++ old ++ rest))) eqn:E;
        [| reflexivity].
      pose proof (contains_head _ _ Hpre) as Hhd.
      unfold old in E at 1. unfold old in Hhd at 1.
      cbn [startswith] in E, Hhd.
      apply andb_true_iff in E as [Hc E]. rewrite Hc in Hhd.
      apply (startswith_before _ _ _ Hq) in E. now rewrite E in Hhd. }
    unfold pass. rewrite (pass_copy _ _ _ _ _ _ Hm). fold pass.
    rewrite (IH _ (contains_tail _ _ _ Hpre)). reflexivity.
Qed.

End ReplaceOnce.

End RewriterFacts.

(* ================================================================== *)
(** * Properties of the rewriter *)

Module RewriterSpec.
Import PyStr Scan Terms StrFacts ScanFacts RenameFacts DictFacts RewriterFacts
       Rewriter.

(** After rules 3 to 5 a line holds none of the three type names. *)
Lemma rules_3_5_free (line : string) :
  let out := rename_index_column (replace_types line) in
  contains "SERIAL" out = false /\ contains "integer" out = false /\
  contains "bigint" out = false.
Proof.
  unfold replace_types. repeat split.
  - apply rename_keeps_free; [reflexivity|].
    do 2 (apply replace_keeps_free; [reflexivity|]).
    apply replace_removes. reflexivity.
  - apply rename_keeps_free; [reflexivity|].
    apply replace_keeps_free; [reflexivity|].
    apply replace_removes. reflexivity.
  - apply rename_keeps_free; [reflexivity|].
    apply replace_removes. reflexivity.
Qed.

(** C8: for every line, what rules 3 to 5 (the SERIAL replacement, the two
    integer-type replacements and the renaming of [index]) make of it is a
    fixed point of those rules: applying them a second time changes
    nothing. *)
Theorem C8_rules_3_5_idempotent (line : string) :
  rename_index_column (replace_types (rename_index_column (replace_types line)))
  = rename_index_column (replace_types line).
Proof.
  destruct (rules_3_5_free line) as [Hs [Hi Hb]].
  set (out := rename_index_column (replace_types line)) in *.
  assert (Hout : replace_types out = out).
  { unfold replace_types.
    rewrite (replace_absent "SERIAL" _ _ Hs).
    rewrite (replace_absent "integer" _ _ Hi).
    exact (replace_absent "bigint" _ _ Hb). }
  rewrite Hout. apply rename_idempotent.
Qed.

Lemma for_each_app {E S A : Type} (body : S -> A -> result E S)
    (l1 l2 : list A) :
  forall st,
    for_each body st (l1 ++ l2)%list
    = bind (for_each body st l1) (fun st' => for_each body st' l2).
Proof.
  induction l1 as [|x l1 IH]; intros st; [reflexivity|].
  cbn [for_each app]. destruct (body st x); [apply IH | reflexivity].
Qed.

(** The example's table definition is emitted as one block. *)
Lemma create_t_emitted (flushed : string -> nat) :
  for_each (step flushed) init create_t = Ok (mkState [] "" emitted_t).
Proof. vm_compute. reflexivity. Qed.

(** Its ALTER TABLE statement is complete on one line. *)
Lemma alter_t_complete (flushed : string -> nat) :
  step flushed (mkState [] "" emitted_t) alter_t
  = end_of_alter flushed (mkState [] "" emitted_t)
      "ALTER TABLE t ADD CONSTRAINT t_pkey PRIMARY KEY (id);".
Proof.
  unfold step. set (e := end_of_alter flushed). vm_compute. reflexivity.
Qed.

(** C1: on the specification's example, a table definition followed by the
    ALTER TABLE statement that gives it a primary key, no PRIMARY KEY clause
    is inserted, however much of the output is in the file when it is read
    back: the conversion ends with [TypeError] at [next(lines)], as it does
    for a writer that does not buffer, or it leaves the block as it was
    emitted, as it does when nothing has been flushed. *)
Theorem C1_primary_key_never_inserted :
  (forall flushed,
     convert_lines flushed (create_t ++ [alter_t])%list = Raise TypeError \/
     convert_lines flushed (create_t ++ [alter_t])%list
     = Ok (mkState [] "" emitted_t)) /\
  convert_lines unbuffered (create_t ++ [alter_t])%list = Raise TypeError /\
  convert_lines fully_buffered (create_t ++ [alter_t])%list
  = Ok (mkState [] "" emitted_t).
Proof.
  split; [| split; vm_compute; reflexivity].
  intros flushed.
  unfold convert_lines.
  rewrite for_each_app, create_t_emitted. cbn [bind for_each].
  rewrite alter_t_complete.
  destruct (end_of_alter flushed _ _) as [st'|e] eqn:E.
  - right. cbn [bind]. now rewrite (end_of_alter_keeps_output _ _ _ _ E).
  - left. cbn [bind]. now rewrite (end_of_alter_raises _ _ _ _ E).
Qed.

(** C5: the renaming reaches [index] between quotes, where it stands in a
    string value, as it reaches the bare column name; inside a longer
    identifier it is left alone. *)
Theorem C5_index_renamed_in_string_literal :
  rename_index_column "INSERT INTO t VALUES ('index');"
    = "INSERT INTO t VALUES ('_index');" /\
  (forall rest, rename_from (Some "'"%char) ("index'" ++ rest)
                = "_index'" ++ rename_from (Some "'"%char) rest) /\
  rename_index_column "index INTEGER, myindex text"
    = "_index INTEGER, myindex text".
Proof.
  split; [vm_compute; reflexivity|]. split; [| vm_compute; reflexivity].
  intros rest.
  change ("index'" ++ rest) with ("index" ++ String "'" rest).
  rewrite rename_from_match by reflexivity.
  unfold rename_from at 1.
  rewrite pass_copy by (apply index_word_after_word; reflexivity).
  reflexivity.
Qed.

(** C6: when the ALTER TABLE statement for the primary key of [t] is
    complete and the output file holds the definition of [t], the step
    raises [TypeError]: the buffer is not cleared and the run does not go
    on. *)
Theorem C6_alter_buffer_not_cleared :
  for_each (step unbuffered) (mkState [] "" emitted_t)
    ["ALTER TABLE t" ++ nl;
     "    ADD CONSTRAINT t_pkey PRIMARY KEY (id);" ++ nl;
     "CREATE INDEX i ON t (name);" ++ nl]
  = Raise TypeError.
Proof. vm_compute; reflexivity. Qed.

Lemma is_empty_dict_snoc (d : dict) (kv : string * list string) :
  is_empty_dict (d ++ [kv])%list = false.
Proof. now destruct d. Qed.

Section WithWriter.

Variable flushed : string -> nat.
Let step := step flushed.

(** The names of the pending table definitions stay distinct. *)
Lemma step_keys_nodup (st st' : state) (line : string) :
  NoDup (keys (create_table_statements st)) ->
  step st line = Ok st' ->
  NoDup (keys (create_table_statements st')).
Proof.
  intros Hnd. unfold step, Rewriter.step.
  destruct (is_directive line); [intros [= <-]; exact Hnd|].
  destruct (has_table_option _); [intros [= <-]; exact Hnd|].
  destruct (startswith "CREATE TABLE" _).
  { destruct (Re.search _ _); [| discriminate].
    intros [= <-]. now apply dict_set_nodup. }
  destruct (startswith ");" _ && _).
  { destruct (last_key _); intros [= <-]; [| exact Hnd].
    apply dict_del_nodup. now apply dict_set_nodup. }
  destruct (negb (is_empty_dict _)).
  { destruct (last_key _); intros [= <-]; [| exact Hnd].
    now apply dict_set_nodup. }
  destruct (_ || _).
  { destruct (contains ";" _); [| intros [= <-]; exact Hnd].
    unfold end_of_alter. destruct (Re.search _ _) as [[t c]|].
    - destruct (rewrite_output _ _ _ _); simpl; [| discriminate].
      intros [= <-]; exact Hnd.
    - intros [= <-]; exact Hnd. }
  destruct (startswith "CREATE INDEX" _); intros [= <-]; exact Hnd.
Qed.

Lemma run_keys_nodup (lines : list string) :
  forall st st',
    NoDup (keys (create_table_statements st)) ->
    for_each step st lines = Ok st' ->
    NoDup (keys (create_table_statements st')).
Proof.
  induction lines as [|l lines IH]; intros st st' Hnd H; cbn [for_each] in H.
  - now injection H as <-.
  - destruct (step st l) as [st1|e] eqn:E; cbn [bind] in H; [| discriminate].
    exact (IH _ _ (step_keys_nodup _ _ _ Hnd E) H).
Qed.

(** In every state the conversion reaches, the last pending name occurs
    once. *)
Lemma last_key_fresh (lines : list string) (st : state) (d : dict)
    (t : string) (buf : list string) :
  convert_lines flushed lines = Ok st ->
  create_table_statements st = (d ++ [(t, buf)])%list ->
  ~ In t (keys d).
Proof.
  intros Hrun Hd Hin.
  pose proof (run_keys_nodup lines init st (NoDup_nil _) Hrun) as Hnd.
  rewrite Hd in Hnd. unfold keys in Hnd. rewrite map_app in Hnd.
  apply NoDup_remove_2 in Hnd. rewrite app_nil_r in Hnd. now apply Hnd.
Qed.

End WithWriter.

(** C7, counterexample: with the definition of [t] pending, a line that
    only starts with the terminator closes and flushes the block; a line
    with a table option is neither appended nor emitted; and after [a], [b]
    and [a] again were opened, a line goes to [b]. *)
Lemma C7_counterexample :
  String.eqb (strip ("); -- end of t" ++ nl)) ");" = false /\
  step unbuffered pending_t ("); -- end of t" ++ nl)
    = Ok (mkState [] "" ("CREATE TABLE t (" ++ nl ++ "); -- end of t" ++ nl)) /\
  step unbuffered pending_t ("WITH (OIDS=FALSE)" ++ nl) = Ok pending_t /\
  convert_lines unbuffered ["CREATE TABLE a (" ++ nl; "CREATE TABLE b (" ++ nl;
                 "CREATE TABLE a (" ++ nl; "  x text" ++ nl]
    = Ok (mkState [("a", ["CREATE TABLE a (" ++ nl]);
                   ("b", ["CREATE TABLE b (" ++ nl; "  x text" ++ nl])] "" "").
Proof. repeat split; vm_compute; reflexivity. Qed.

(** C7, amended: while table definitions are pending, a line that is kept
    and opens no table is, as rewritten, appended to the buffer of the last
    key of the dictionary and not emitted, unless its trimmed text starts
    with the terminator: then it is appended, the whole buffer of that key
    is written out and the entry is removed. *)
Theorem C7_pending_block (flushed : string -> nat) (st : state) (d : dict)
    (t : string) (buf : list string) (line : string) :
  create_table_statements st = (d ++ [(t, buf)])%list ->
  ~ In t (keys d) ->
  is_directive line = false ->
  has_table_option (rewrite_line line) = false ->
  startswith "CREATE TABLE" (strip (rewrite_line line)) = false ->
  step flushed st line =
    if startswith ");" (strip (rewrite_line line))
    then Ok (mkState d (alter_table_buffer st)
                     (outfile st ++ join (buf ++ [rewrite_line line])))
    else Ok (mkState (d ++ [(t, buf ++ [rewrite_line line])])%list
                     (alter_table_buffer st) (outfile st)).
Proof.
  intros Hd Ht Hdir Hopt Hct. unfold step.
  rewrite Hdir, Hopt, Hct, Hd, is_empty_dict_snoc, last_key_snoc.
  cbn [negb]. rewrite andb_true_r. unfold dict_append.
  rewrite (dict_get_snoc _ _ _ Ht), (dict_set_snoc _ _ _ _ Ht).
  rewrite (dict_get_snoc _ _ _ Ht), (dict_del_snoc _ _ _ Ht).
  reflexivity.
Qed.

Lemma C7_witness :
  step unbuffered pending_t ("  id integer," ++ nl)
    = Ok (mkState [("t", ["CREATE TABLE t (" ++ nl; "  id INTEGER," ++ nl])]
                  "" "") /\
  step unbuffered pending_t (");" ++ nl)
    = Ok (mkState [] "" ("CREATE TABLE t (" ++ nl ++ ");" ++ nl)).
Proof.
  split.
  - exact (C7_pending_block unbuffered pending_t [] "t"
             ["CREATE TABLE t (" ++ nl] ("  id integer," ++ nl)
             eq_refl (fun H => H) eq_refl eq_refl eq_refl).
  - exact (C7_pending_block unbuffered pending_t [] "t"
             ["CREATE TABLE t (" ++ nl] (");" ++ nl)
             eq_refl (fun H => H) eq_refl eq_refl eq_refl).
Defined.

(** In a state with nothing pending, a kept line that starts with
    [CREATE INDEX] is written at once, without the clause and with a line
    feed behind it. *)
Lemma step_create_index (flushed : string -> nat) (st : state)
    (line : string) :
  create_table_statements st = [] ->
  alter_table_buffer st = "" ->
  is_directive line = false ->
  has_table_option (rewrite_line line) = false ->
  startswith "CREATE INDEX" (rewrite_line line) = true ->
  step flushed st line
  = Ok (write st (replace " USING btree" "" (rewrite_line line) ++ nl)).
Proof.
  intros Hd Ha Hdir Hopt Hci. unfold step.
  rewrite Hdir, Hopt, Hd, Ha, Hci.
  destruct (strip_create_index _ Hci) as [r ->].
  reflexivity.
Qed.

(** C9, counterexample: a CREATE INDEX line with storage parameters is
    dropped; one that ends the file without a line feed is followed by no
    blank line; one that arrives while a table definition is pending is
    buffered, its clause intact. *)
Lemma C9_counterexample :
  step unbuffered init
    ("CREATE INDEX i ON t USING btree (c) WITH (fillfactor='90');" ++ nl)
    = Ok init /\
  convert_postgres_to_sqlite unbuffered "CREATE INDEX i ON t USING btree (c);"
    = Ok ("CREATE INDEX i ON t (c);" ++ nl) /\
  step unbuffered pending_t ("CREATE INDEX i ON t USING btree (c);" ++ nl)
    = Ok (mkState [("t", ["CREATE TABLE t (" ++ nl;
                          "CREATE INDEX i ON t USING btree (c);" ++ nl])]
                  "" "").
Proof. repeat split; vm_compute; reflexivity. Qed.

Lemma startswith_before_nl (old : string) :
  forall p, startswith old (p ++ nl) = true ->
            startswith old p = true \/ contains nl old = true.
Proof.
  induction old as [|a old IH]; intros p H; [now left|].
  destruct p as [|c p].
  - right. cbn in H. apply andb_true_iff in H as [Ha _].
    apply Ascii.eqb_eq in Ha. subst a. reflexivity.
  - change (String c p ++ nl) with (String c (p ++ nl)) in H.
    cbn [startswith] in H |- *. apply andb_true_iff in H as [Hc H].
    rewrite Hc. destruct (IH _ H) as [Hp | Hn]; [now left|].
    right. cbn [contains]. rewrite Hn. apply orb_true_r.
Qed.

(** A text without line feed that is not in [p] is not in [p] followed by
    a line feed. *)
Lemma contains_before_nl (old p : string) :
  is_empty old = false -> contains nl old = false ->
  contains old p = false -> contains old (p ++ nl) = false.
Proof.
  intros Hne Hnl. induction p as [|c p IH]; intros H.
  - change ("" ++ nl) with (String nl_char ""). cbn [contains].
    replace (startswith old "") with false by (now destruct old).
    cbn [orb]. rewrite orb_false_r.
    destruct (startswith old (String nl_char "")) eqn:E; [| reflexivity].
    destruct (startswith_before_nl old "" E) as [Hp | Hn];
      [now destruct old | congruence].
  - change (String c p ++ nl) with (String c (p ++ nl)).
    cbn [contains]. rewrite (IH (contains_tail _ _ _ H)), orb_false_r.
    destruct (startswith old (String c (p ++ nl))) eqn:E; [| reflexivity].
    destruct (startswith_before_nl old (String c p) E) as [Hp | Hn];
      [| congruence].
    now rewrite (contains_head _ _ H) in Hp.
Qed.

(** Replacing the clause by nothing in a text made of pieces that do not
    hold it leaves the pieces. *)
Lemma replace_pieces (pieces : list string) (last : string) :
  clause_free " USING btree" pieces = true ->
  contains " USING btree" last = false ->
  replace " USING btree" "" (with_clause " USING btree" pieces last)
  = join pieces ++ last.
Proof.
  intros Hp Hl. induction pieces as [|p ps IH].
  - exact (replace_absent _ _ _ Hl).
  - cbn [clause_free forallb] in Hp. apply andb_true_iff in Hp as [Hfree Hp].
    apply negb_true_iff in Hfree.
    cbn [with_clause join fold_right].
    rewrite (replace_first " " "USING btree" "" p _ eq_refl Hfree).
    fold (join ps). rewrite (IH Hp). now rewrite append_assoc.
Qed.

(** The first occurrence of a text that is there. *)
Lemma first_occurrence (old s : string) :
  is_empty old = false -> contains old s = true ->
  exists pre rest, s = pre ++ old ++ rest /\ contains old pre = false.
Proof.
  intros Hne. induction s as [|c s IH]; intros H.
  - destruct old; discriminate.
  - destruct (startswith old (String c s)) eqn:E.
    + destruct (startswith_split _ _ E) as [rest Hs].
      exists "", rest. split; [exact Hs | now destruct old].
    + cbn [contains] in H. rewrite E in H. cbn [orb] in H.
      destruct (IH H) as [pre [rest [Hs Hpre]]].
      exists (String c pre), rest. split; [now rewrite Hs|].
      cbn [contains]. rewrite Hpre, orb_false_r.
      destruct (startswith old (String c pre)) eqn:E'; [| reflexivity].
      rewrite Hs in E.
      change (String c (pre ++ old ++ rest))
        with (String c pre ++ (old ++ rest)) in E.
      now rewrite (startswith_app_l _ _ _ E') in E.
Qed.

Lemma length_app (a b : string) :
  String.length (a ++ b) = String.length a + String.length b.
Proof. induction a as [|c a IH]; cbn; [reflexivity | now rewrite IH]. Qed.

Lemma with_clause_app (clause : string) (pieces : list string)
    (last text : string) :
  with_clause clause pieces last ++ text
  = with_clause clause pieces (last ++ text).
Proof.
  induction pieces as [|p ps IH]; [reflexivity|].
  cbn [with_clause]. now rewrite !append_assoc, IH.
Qed.

(** Every text is made of pieces that do not hold the clause, with the
    clause between them. *)
Lemma pieces_exist (n : nat) :
  forall s, String.length s <= n ->
    exists pieces last,
      s = with_clause " USING btree" pieces last /\
      clause_free " USING btree" pieces = true /\
      contains " USING btree" last = false.
Proof.
  induction n as [|n IH]; intros s Hn.
  - destruct s; [| cbn in Hn; lia]. now exists [], "".
  - destruct (contains " USING btree" s) eqn:E; [| now exists [], s].
    destruct (first_occurrence " USING btree" s eq_refl E)
      as [pre [rest [Hs Hpre]]].
    destruct (IH rest) as [pieces [last [Hrest [Hfree Hlast]]]].
    { apply (f_equal String.length) in Hs.
      rewrite !length_app in Hs. cbn [String.length] in Hs. lia. }
    exists (pre :: pieces), last. repeat split.
    + cbn [with_clause]. now rewrite <- Hrest.
    + cbn [clause_free forallb]. rewrite Hpre. exact Hfree.
    + exact Hlast.
Qed.

(** C9, amended: when no table definition and no ALTER TABLE statement is
    pending, a kept line that, as rewritten, starts with [CREATE INDEX] and
    ends with a line feed is written to the output at once, with every
    occurrence of the clause [ USING btree] removed and followed by one
    empty line; nothing is buffered.  The line is made of pieces that do
    not hold the clause, with the clause between them (none, for a line
    without the clause), and what is written is the pieces, a line feed and
    a second line feed. *)
Theorem C9_create_index_emitted (flushed : string -> nat) (st : state)
    (line body : string) :
  create_table_statements st = [] ->
  alter_table_buffer st = "" ->
  is_directive line = false ->
  has_table_option (rewrite_line line) = false ->
  startswith "CREATE INDEX" (rewrite_line line) = true ->
  rewrite_line line = body ++ nl ->
  (exists pieces last,
     body = with_clause " USING btree" pieces last /\
     clause_free " USING btree" pieces = true /\
     contains " USING btree" last = false) /\
  (forall pieces last,
     body = with_clause " USING btree" pieces last ->
     clause_free " USING btree" pieces = true ->
     contains " USING btree" last = false ->
     step flushed st line
     = Ok (mkState [] "" (outfile st ++ join pieces ++ last ++ nl ++ nl))).
Proof.
  intros Hd Ha Hdir Hopt Hci Hline. split.
  - exact (pieces_exist _ body (le_n _)).
  - intros pieces last Hbody Hfree Hlast.
    rewrite (step_create_index flushed st line Hd Ha Hdir Hopt Hci).
    rewrite Hline, Hbody, with_clause_app.
    rewrite (replace_pieces _ _ Hfree
               (contains_before_nl " USING btree" last eq_refl eq_refl Hlast)).
    unfold write. rewrite Hd, Ha. now rewrite !append_assoc.
Qed.

Lemma C9_witness :
  step unbuffered init ("CREATE INDEX idx ON public.t USING btree (index);" ++ nl)
  = Ok (mkState [] "" ("CREATE INDEX idx ON t (_index);" ++ nl ++ nl)) /\
  step unbuffered init ("CREATE INDEX idx ON public.t (index);" ++ nl)
  = Ok (mkState [] "" ("CREATE INDEX idx ON t (_index);" ++ nl ++ nl)).
Proof.
  split.
  - exact (proj2 (C9_create_index_emitted unbuffered init
                    ("CREATE INDEX idx ON public.t USING btree (index);" ++ nl)
                    "CREATE INDEX idx ON t USING btree (_index);"
                    eq_refl eq_refl eq_refl eq_refl eq_refl eq_refl)
             ["CREATE INDEX idx ON t"] " (_index);" eq_refl eq_refl eq_refl).
  - exact (proj2 (C9_create_index_emitted unbuffered init
                    ("CREATE INDEX idx ON public.t (index);" ++ nl)
                    "CREATE INDEX idx ON t (_index);"
                    eq_refl eq_refl eq_refl eq_refl eq_refl eq_refl)
             [] "CREATE INDEX idx ON t (_index);" eq_refl eq_refl eq_refl).
Defined.

(** C10, counterexample: a CREATE TABLE line with a quoted name and a table
    option is skipped without an exception; and a line in which a name
    follows [CREATE TABLE ] only once the schema prefix is removed opens a
    table definition. *)
Lemma C10_counterexample :
  step unbuffered init ("CREATE TABLE " ++ dq ++ "t" ++ dq
             ++ " (id integer) WITH (OIDS=FALSE);" ++ nl) = Ok init /\
  startswith "CREATE TABLE" (strip ("CREATE TABLEpublic. x (" ++ nl)) = true /\
  Re.search Re.create_table_at ("CREATE TABLEpublic. x (" ++ nl) = None /\
  step unbuffered init ("CREATE TABLEpublic. x (" ++ nl)
    = Ok (mkState [("x", ["CREATE TABLE x (" ++ nl])] "" "").
Proof. repeat split; vm_compute; reflexivity. Qed.

(** C10, amended: a kept line whose rewritten text, trimmed, starts with
    [CREATE TABLE] and nowhere holds [CREATE TABLE ] followed by a word
    character raises [AttributeError], in every state; the exception ends
    the run whatever follows. *)
Theorem C10_unnamed_table_raises (flushed : string -> nat) (st : state)
    (line : string) (rest : list string) :
  is_directive line = false ->
  has_table_option (rewrite_line line) = false ->
  startswith "CREATE TABLE" (strip (rewrite_line line)) = true ->
  Re.search Re.create_table_at (rewrite_line line) = None ->
  for_each (step flushed) st (line :: rest) = Raise AttributeError.
Proof.
  intros Hdir Hopt Hct Hname. cbn [for_each]. unfold step.
  now rewrite Hdir, Hopt, Hct, Hname.
Qed.

Lemma C10_witness :
  for_each (step unbuffered) pending_t
    ["CREATE TABLE " ++ dq ++ "users" ++ dq ++ " (" ++ nl;
     "  id integer" ++ nl; ");" ++ nl]
  = Raise AttributeError.
Proof.
  exact (C10_unnamed_table_raises unbuffered pending_t
           ("CREATE TABLE " ++ dq ++ "users" ++ dq ++ " (" ++ nl)
           ["  id integer" ++ nl; ");" ++ nl]
           eq_refl eq_refl eq_refl eq_refl).
Defined.

End RewriterSpec.

(* ================================================================== *)
(** * Properties of the executor *)

Module ExecutorSpec.
Import PyStr StrFacts Executor.

Section WithStore.

Variable Store : Type.
Variable execute : Store -> string -> result sqlite_error Store.

Let step := step execute.
Let import_lines := import_lines execute.

(** The test of line 161 never succeeds: the buffer ends with the space
    that line 158 has just appended. *)
Lemma buffer_never_terminated (buffer line : string) :
  endswith ";" (buffer ++ (line ++ " ")) = false.
Proof. rewrite <- append_assoc. apply endswith_space. Qed.

Lemma step_skips (st : state Store) (line : string) :
  is_skipped (strip line) = true -> step st line = Ok st.
Proof. intros H. unfold step, Executor.step. now rewrite H. Qed.

(** A line that starts no command is only accumulated, whatever it ends
    with. *)
Lemma step_accumulates (st : state Store) (line : string) :
  is_skipped (strip line) = false ->
  starts_command (strip line) = false ->
  step st line
  = Ok (mkState (current_command st ++ (strip line ++ " "))
                (conn st) (stdout st)).
Proof.
  intros Hs Hk. unfold step, Executor.step. rewrite Hs, Hk. cbn [andb bind].
  cbn [current_command]. now rewrite buffer_never_terminated.
Qed.

(** So is the first line of a file. *)
Lemma step_first (db : Store) (out : list string) (line : string) :
  is_skipped (strip line) = false ->
  step (mkState "" db out) line
  = Ok (mkState (strip line ++ " ") db out).
Proof.
  intros Hs. unfold step, Executor.step. rewrite Hs.
  cbn [current_command is_empty negb]. rewrite andb_false_r.
  cbn [bind current_command conn stdout].
  change ("" ++ (strip line ++ " ")) with (strip line ++ " ").
  now rewrite endswith_space.
Qed.

(** Lines that start no command execute nothing. *)
Lemma continuation_executes_nothing (rest : list string) :
  (forall l, In l rest -> starts_command (strip l) = false) ->
  forall st, exists buffer,
    for_each step st rest
    = Ok (mkState buffer (conn st) (stdout st)).
Proof.
  induction rest as [|l rest IH]; intros Hrest st.
  - exists (current_command st). now destruct st.
  - cbn [for_each].
    assert (Hl : starts_command (strip l) = false) by (apply Hrest; now left).
    assert (Hr : forall x, In x rest -> starts_command (strip x) = false)
      by (intros x Hx; apply Hrest; now right).
    destruct (is_skipped (strip l)) eqn:Hs.
    + rewrite (step_skips _ _ Hs). cbn [bind]. exact (IH Hr st).
    + rewrite (step_accumulates _ _ Hs Hl). cbn [bind].
      exact (IH Hr _).
Qed.

(** A file that holds one statement, on however many lines, leaves the
    database untouched: the statement is never executed. *)
Lemma lone_statement_never_executed (db : Store) (first : string)
    (rest : list string) :
  (forall l, In l rest -> starts_command (strip l) = false) ->
  exists buffer, import_lines db (first :: rest) = Ok (mkState buffer db []).
Proof.
  intros Hrest. unfold import_lines, Executor.import_lines. fold step. cbn [for_each].
  destruct (is_skipped (strip first)) eqn:Hs.
  - rewrite (step_skips _ _ Hs). cbn [bind].
    exact (continuation_executes_nothing rest Hrest (mkState "" db [])).
  - rewrite (step_first _ _ _ Hs). cbn [bind].
    exact (continuation_executes_nothing rest Hrest
             (mkState (strip first ++ " ") db [])).
Qed.

Lemma accumulated_not_nil (current : string) (lines : list string) :
  accumulated current lines <> [].
Proof.
  revert current; induction lines as [|l lines IH]; intros current;
    cbn [accumulated]; [discriminate|].
  destruct (starts_command l); [discriminate | apply IH].
Qed.

Lemma removelast_cons {A : Type} (x : A) (l : list A) :
  l <> [] -> removelast (x :: l) = x :: removelast l.
Proof. now destruct l. Qed.

Lemma last_cons {A : Type} (x d : A) (l : list A) :
  l <> [] -> last (x :: l) d = last l d.
Proof. now destruct l. Qed.

Lemma worked_lines_cons (l : string) (lines : list string) :
  worked_lines (l :: lines)
  = if is_skipped (strip l) then worked_lines lines
    else strip l :: worked_lines lines.
Proof.
  unfold worked_lines. cbn [map filter].
  now destruct (is_skipped (strip l)).
Qed.

(** A line that starts a command, with text in the buffer: the text is
    tried, and the line begins the next one. *)
Lemma step_command (st : state Store) (line : string) :
  is_skipped (strip line) = false ->
  starts_command (strip line) = true ->
  is_empty (current_command st) = false ->
  step st line
  = match execute (conn st) (current_command st) with
    | Ok db' => Ok (mkState (strip line ++ " ") db' (stdout st))
    | Raise (OperationalError detail) =>
        Ok (mkState (strip line ++ " ") (conn st)
                    (stdout st ++ [error_report (current_command st) detail]))
    | Raise e => Raise e
    end.
Proof.
  intros Hs Hk Hb. unfold step, Executor.step.
  rewrite Hs, Hk, Hb. cbn [negb andb]. unfold execute_current.
  destruct (execute (conn st) (current_command st)) as [db'|[d|d|d]];
    cbn [bind]; try reflexivity;
    cbn [current_command conn stdout];
    change ("" ++ (strip line ++ " ")) with (strip line ++ " ");
    now rewrite endswith_space.
Qed.

(** With text in the buffer, the loop tries the texts that the lines make
    up, all but the last, which it leaves in the buffer. *)
Lemma run_accumulated (lines : list string) :
  forall st,
    is_empty (current_command st) = false ->
    for_each step st lines
    = bind (try_each execute (conn st) (stdout st)
              (removelast (accumulated (current_command st)
                                       (worked_lines lines))))
        (fun r =>
           Ok (mkState (last (accumulated (current_command st)
                                          (worked_lines lines)) "")
                       (fst r) (snd r))).
Proof.
  induction lines as [|l lines IH]; intros st Hb.
  - cbn. now destruct st.
  - cbn [for_each]. rewrite worked_lines_cons.
    destruct (is_skipped (strip l)) eqn:Hs.
    + rewrite (step_skips _ _ Hs). cbn [bind]. exact (IH st Hb).
    + cbn [accumulated]. destruct (starts_command (strip l)) eqn:Hk.
      * rewrite (removelast_cons _ _ (accumulated_not_nil _ _)).
        rewrite (last_cons _ _ _ (accumulated_not_nil _ _)).
        cbn [try_each]. rewrite (step_command _ _ Hs Hk Hb).
        destruct (execute (conn st) (current_command st)) as [db'|[d|d|d]];
          cbn [bind]; try reflexivity;
          rewrite IH by (apply RewriterFacts.is_empty_app; reflexivity);
          reflexivity.
      * rewrite (step_accumulates _ _ Hs Hk). cbn [bind].
        rewrite IH
          by (apply RewriterFacts.is_empty_app, RewriterFacts.is_empty_app;
              reflexivity).
        reflexivity.
Qed.

(** When every line starts a command, the texts are the lines, one by
    one: all but the last are tried. *)
Lemma statements_one_per_line (lines : list string) :
  forallb (fun l => negb (is_skipped (strip l)) && starts_command (strip l))
          lines = true ->
  statements lines = map (fun l => strip l ++ " ") lines.
Proof.
  assert (H : forall ls current,
             forallb (fun l => negb (is_skipped (strip l))
                               && starts_command (strip l)) ls = true ->
             accumulated current (worked_lines ls)
             = current :: map (fun l => strip l ++ " ") ls).
  { induction ls as [|l ls IH]; intros current Hl; [reflexivity|].
    cbn [forallb] in Hl. apply andb_true_iff in Hl as [Hc Hl].
    apply andb_true_iff in Hc as [Hs Hk]. apply negb_true_iff in Hs.
    rewrite worked_lines_cons, Hs. cbn [accumulated map]. rewrite Hk.
    now rewrite (IH _ Hl). }
  destruct lines as [|l lines]; [reflexivity|]. intros Hl.
  cbn [forallb] in Hl. apply andb_true_iff in Hl as [Hc Hl].
  apply andb_true_iff in Hc as [Hs Hk]. apply negb_true_iff in Hs.
  unfold statements. rewrite worked_lines_cons, Hs. cbn [map].
  exact (H _ _ Hl).
Qed.

(** C3, amended: the statements that the executor hands to the database,
    which are the texts accumulated from the file, all but the last, are
    tried one after the other.  One that fails with [OperationalError] is
    reported with its text and the database's message, leaves the database
    as it was, and the import goes on with the next; it never aborts the
    import.  One that fails with an exception of another class aborts the
    import with that exception.  The last text stays in the buffer. *)
Theorem C3_operational_errors_do_not_abort (db : Store) (lines : list string) :
  import_lines db lines
  = bind (try_each execute db [] (removelast (statements lines)))
      (fun r => Ok (mkState (last (statements lines) "") (fst r) (snd r))).
Proof.
  unfold import_lines, Executor.import_lines. fold step.
  generalize (@nil string) as out.
  induction lines as [|l lines IH]; intros out; [reflexivity|].
  cbn [for_each]. unfold statements. rewrite worked_lines_cons.
  destruct (is_skipped (strip l)) eqn:Hs.
  - rewrite (step_skips _ _ Hs). cbn [bind]. exact (IH out).
  - rewrite (step_first _ _ _ Hs). cbn [bind].
    rewrite run_accumulated
      by (apply RewriterFacts.is_empty_app; reflexivity).
    reflexivity.
Qed.

End WithStore.

(** C3, counterexample: the second insertion of the same row violates the
    primary key, the database raises [IntegrityError], which the executor
    does not catch: the import aborts and the two statements that follow are
    never executed. *)
Lemma C3_counterexample :
  import_lines keyed []
    ["INSERT INTO t VALUES (1);" ++ nl; "INSERT INTO t VALUES (1);" ++ nl;
     "INSERT INTO t VALUES (2);" ++ nl; "INSERT INTO t VALUES (3);" ++ nl]
  = Raise (IntegrityError "UNIQUE constraint failed: t.id").
Proof. vm_compute; reflexivity. Qed.

(** C2: a line is appended to the buffer with a space behind it, so the
    buffer never ends with the terminator when line 161 tests it: a
    statement that ends its line with a semicolon is not executed then; it
    stays in the buffer. *)
Theorem C2_terminated_statement_not_executed :
  (forall (st : state (list string)) (line : string),
     endswith ";" (current_command st ++ (strip line ++ " ")) = false) /\
  import_lines recording [] ["CREATE TABLE t (id INTEGER);" ++ nl]
  = Ok (mkState "CREATE TABLE t (id INTEGER); " [] []).
Proof.
  split; [intros st line; apply buffer_never_terminated|].
  vm_compute; reflexivity.
Qed.

(** C4: a statement on three lines that is the last of its file is never
    executed; followed by a line that starts another command it is executed
    once, as one text. *)
Theorem C4_last_statement_not_executed :
  import_lines recording []
    ["INSERT INTO t VALUES" ++ nl; "(1," ++ nl; "2);" ++ nl]
  = Ok (mkState "INSERT INTO t VALUES (1, 2); " [] []) /\
  import_lines recording []
    ["INSERT INTO t VALUES" ++ nl; "(1," ++ nl; "2);" ++ nl;
     "INSERT INTO t VALUES (3, 4);" ++ nl]
  = Ok (mkState "INSERT INTO t VALUES (3, 4); "
                ["INSERT INTO t VALUES (1, 2); "] []).
Proof. split; vm_compute; reflexivity. Qed.

End ExecutorSpec.

(* ================================================================== *)
(** * More on the rewriting of one line *)

Module LineSpec.
Import PyStr Scan Terms Lines StrFacts ScanFacts RenameFacts RewriterFacts
       Rewriter.

Lemma no_match_without_index (s : string) :
  forall prev, contains "index" s = false ->
    no_match Re.index_word prev s = true.
Proof.
  induction s as [|c s IH]; intros prev H; [reflexivity|].
  cbn [no_match]. rewrite (IH _ (contains_tail _ _ _ H)), andb_true_r.
  unfold Re.index_word. rewrite (contains_head _ _ H).
  now rewrite andb_false_r.
Qed.

(** X1: renaming twice is renaming once. *)
Theorem X1_rename_idempotent (line : string) :
  rename_index_column (rename_index_column line) = rename_index_column line.
Proof. apply rename_idempotent. Qed.

(** X2: whatever the line, its rewritten form holds none of the texts
    [SERIAL], [integer] and [bigint]. *)
Theorem X2_rewritten_line_has_no_postgres_type (line : string) :
  contains "SERIAL" (rewrite_line line) = false /\
  contains "integer" (rewrite_line line) = false /\
  contains "bigint" (rewrite_line line) = false.
Proof.
  unfold rewrite_line, replace_types. repeat split.
  - apply rename_keeps_free; [reflexivity|].
    do 2 (apply replace_keeps_free; [reflexivity|]).
    apply replace_removes. reflexivity.
  - apply rename_keeps_free; [reflexivity|].
    apply replace_keeps_free; [reflexivity|].
    apply replace_removes. reflexivity.
  - apply rename_keeps_free; [reflexivity|].
    apply replace_removes. reflexivity.
Qed.

(** X3: a line that holds none of [public.], [SERIAL], [integer],
    [bigint] and [index] is rewritten to itself. *)
Theorem X3_rewrite_line_leaves_other_text (line : string) :
  contains "public." line = false ->
  contains "SERIAL" line = false ->
  contains "integer" line = false ->
  contains "bigint" line = false ->
  contains "index" line = false ->
  rewrite_line line = line.
Proof.
  intros Hp Hs Hi Hb Hx. unfold rewrite_line, strip_schema, replace_types.
  rewrite (replace_absent _ _ _ Hp), (replace_absent _ _ _ Hs).
  rewrite (replace_absent _ _ _ Hi), (replace_absent _ _ _ Hb).
  unfold rename_index_column. apply pass_no_match.
  now apply no_match_without_index.
Qed.

Lemma X3_witness :
  rewrite_line ("INSERT INTO t VALUES (1, 'a');" ++ nl)
  = "INSERT INTO t VALUES (1, 'a');" ++ nl.
Proof.
  exact (X3_rewrite_line_leaves_other_text
           ("INSERT INTO t VALUES (1, 'a');" ++ nl)
           eq_refl eq_refl eq_refl eq_refl eq_refl).
Defined.

Lemma index_not_before (before rest : string) (c : ascii) :
  contains "index" (String c before) = false ->
  startswith "index" (String c (before ++ "index" ++ rest)) = false.
Proof.
  intros H.
  destruct (startswith "index" (String c (before ++ "index" ++ rest))) eqn:E;
    [| reflexivity].
  pose proof (contains_head _ _ H) as Hhd.
  change (Ascii.eqb "i" c && startswith "ndex" (before ++ "index" ++ rest)
          = true) in E.
  change (Ascii.eqb "i" c && startswith "ndex" before = false) in Hhd.
  apply andb_true_iff in E as [Hc E]. rewrite Hc in Hhd.
  apply (startswith_before "i" "ndex" rest before "ndex" eq_refl) in E.
  now rewrite E in Hhd.
Qed.

(** The pass copies what stands before the first occurrence. *)
Lemma rename_from_before (before rest : string) :
  forall prev, contains "index" before = false ->
    rename_from prev (before ++ "index" ++ rest)
    = before ++ rename_from (last_char before prev) ("index" ++ rest).
Proof.
  induction before as [|c before IH]; intros prev H; [reflexivity|].
  change (String c before ++ "index" ++ rest)
    with (String c (before ++ "index" ++ rest)).
  unfold rename_from at 1. rewrite pass_copy.
  - fold (rename_from (Some c) (before ++ "index" ++ rest)).
    rewrite (IH _ (contains_tail _ _ _ H)). reflexivity.
  - unfold Re.index_word. rewrite (index_not_before _ _ _ H).
    now rewrite andb_false_r.
Qed.

(** An occurrence that is no match is copied. *)
Lemma rename_from_index_kept (prev : option ascii) (rest : string) :
  Re.index_word prev ("index" ++ rest) = false ->
  rename_from prev ("index" ++ rest)
  = "index" ++ rename_from (Some "x"%char) rest.
Proof.
  intros H. unfold rename_from.
  change ("index" ++ rest)
    with (String "i" (String "n" (String "d" (String "e" (String "x" rest))))) in *.
  rewrite (pass_copy _ _ _ _ _ _ H).
  rewrite !pass_copy; try (apply index_word_other; discriminate).
  reflexivity.
Qed.

(** X4: the first occurrence of [index] in a line is renamed when no word
    character stands before it and none behind it; the text before it is
    copied and the renaming goes on behind it. *)
Theorem X4_bare_index_renamed (before after : string) :
  contains "index" before = false ->
  Re.is_word_opt (last_char before None) = false ->
  Re.is_word_opt (String.get 0 after) = false ->
  rename_index_column (before ++ "index" ++ after)
  = before ++ "_index" ++ rename_from (Some "x"%char) after.
Proof.
  intros Hb Hprev Hnext. unfold rename_index_column.
  fold (rename_from None (before ++ "index" ++ after)).
  rewrite (rename_from_before _ _ _ Hb).
  rewrite rename_from_match; [reflexivity|].
  unfold Re.index_word. rewrite Hprev, startswith_app.
  change (String.get 5 ("index" ++ after)) with (String.get 0 after).
  now rewrite Hnext.
Qed.

Lemma X4_witness :
  rename_index_column "SELECT (index) FROM t" = "SELECT (_index) FROM t".
Proof.
  exact (X4_bare_index_renamed "SELECT (" ") FROM t" eq_refl eq_refl eq_refl).
Defined.

(** X5: the first occurrence of [index] in a line is left as it is when a
    word character stands before it or behind it. *)
Theorem X5_index_inside_identifier_kept (before after : string) :
  contains "index" before = false ->
  Re.is_word_opt (last_char before None) = true \/
  Re.is_word_opt (String.get 0 after) = true ->
  rename_index_column (before ++ "index" ++ after)
  = before ++ "index" ++ rename_from (Some "x"%char) after.
Proof.
  intros Hb Hw. unfold rename_index_column.
  fold (rename_from None (before ++ "index" ++ after)).
  rewrite (rename_from_before _ _ _ Hb).
  rewrite rename_from_index_kept; [reflexivity|].
  unfold Re.index_word.
  change (String.get 5 ("index" ++ after)) with (String.get 0 after).
  destruct Hw as [Hw | Hw]; rewrite Hw; [reflexivity|].
  now rewrite andb_false_r.
Qed.

Lemma X5_witness :
  rename_index_column "CREATE TABLE t (index_id text)"
  = "CREATE TABLE t (index_id text)".
Proof.
  exact (X5_index_inside_identifier_kept "CREATE TABLE t (" "_id text)"
           eq_refl (or_intror eq_refl)).
Defined.

End LineSpec.

(* ================================================================== *)
(** * More on whole runs of the rewriter *)

Module RunSpec.
Import PyStr Scan Terms Lines StrFacts ScanFacts DictFacts RewriterFacts
       RewriterSpec Rewriter.

Section WithWriter.

Variable flushed : string -> nat.
Let step := step flushed.

Lemma step_dropped (st : state) (line : string) :
  kept line = false -> step st line = Ok st.
Proof.
  unfold kept, step, Rewriter.step. intros H.
  destruct (is_directive line); [reflexivity|].
  cbn [negb andb] in H. apply negb_false_iff in H. now rewrite H.
Qed.

Lemma kept_inv (line : string) :
  kept line = true ->
  is_directive line = false /\ has_table_option (rewrite_line line) = false.
Proof.
  unfold kept. intros H. apply andb_true_iff in H as [H1 H2].
  now apply negb_true_iff in H1, H2.
Qed.

(** A kept line that opens no table, while tables are pending. *)
Lemma step_pending (st : state) (d : dict) (t : string) (buf : list string)
    (line : string) :
  create_table_statements st = (d ++ [(t, buf)])%list ->
  ~ In t (keys d) ->
  kept line = true -> opens_table line = false ->
  step st line =
    if closes_table line
    then Ok (mkState d (alter_table_buffer st)
                     (outfile st ++ join (buf ++ [rewrite_line line])))
    else Ok (mkState (d ++ [(t, buf ++ [rewrite_line line])])%list
                     (alter_table_buffer st) (outfile st)).
Proof.
  intros Hd Ht Hk Ho. destruct (kept_inv _ Hk) as [Hdir Hopt].
  unfold opens_table in Ho. unfold closes_table, step, Rewriter.step.
  rewrite Hdir, Hopt, Ho, Hd.
  assert (He : is_empty_dict (d ++ [(t, buf)])%list = false) by now destruct d.
  rewrite He, last_key_snoc.
  cbn [negb]. rewrite andb_true_r. unfold dict_append.
  rewrite (dict_get_snoc _ _ _ Ht), (dict_set_snoc _ _ _ _ Ht).
  rewrite (dict_get_snoc _ _ _ Ht), (dict_del_snoc _ _ _ Ht).
  reflexivity.
Qed.

(** A kept line that starts neither a table nor an ALTER TABLE statement,
    while nothing is pending. *)
Lemma step_plain (st : state) (line : string) :
  create_table_statements st = [] -> alter_table_buffer st = "" ->
  kept line = true -> opens_table line = false -> starts_alter line = false ->
  step st line = Ok (write st (emitted line)).
Proof.
  intros Hd Ha Hk Ho Hal. destruct (kept_inv _ Hk) as [Hdir Hopt].
  unfold opens_table in Ho. unfold starts_alter in Hal.
  unfold emitted, step, Rewriter.step.
  rewrite Hk, Hdir, Hopt, Ho, Hd, Ha, Hal. cbn [negb is_empty_dict is_empty].
  rewrite andb_false_r. cbn [orb].
  now destruct (startswith "CREATE INDEX" (rewrite_line line)).
Qed.

(** X6: the handling of a completed ALTER TABLE statement never changes the
    output file nor the pending tables: it raises [TypeError], or it only
    empties the buffer. *)
Theorem X6_alter_never_patches (st : state) (buffer : string) :
  end_of_alter flushed st buffer = Raise TypeError \/
  end_of_alter flushed st buffer
  = Ok (mkState (create_table_statements st) "" (outfile st)).
Proof.
  destruct (end_of_alter flushed st buffer) as [st'|e] eqn:E.
  - right. now rewrite (end_of_alter_keeps_output _ _ _ _ E).
  - left. now rewrite (end_of_alter_raises _ _ _ _ E).
Qed.

Lemma step_extends (st st' : state) (line : string) :
  step st line = Ok st' -> exists text, outfile st' = outfile st ++ text.
Proof.
  assert (Hsame : forall d a, exists text,
            outfile (mkState d a (outfile st)) = outfile st ++ text)
    by (intros; exists ""; cbn [outfile]; now rewrite append_nil_r).
  unfold step, Rewriter.step.
  destruct (is_directive line);
    [intros [= <-]; exists ""; now rewrite append_nil_r|].
  destruct (has_table_option _);
    [intros [= <-]; exists ""; now rewrite append_nil_r|].
  destruct (startswith "CREATE TABLE" _).
  { destruct (Re.search _ _); [| discriminate]. intros [= <-]. apply Hsame. }
  destruct (startswith ");" _ && _).
  { destruct (last_key _); intros [= <-].
    - now eexists.
    - exists ""; now rewrite append_nil_r. }
  destruct (negb (is_empty_dict _)).
  { destruct (last_key _); intros [= <-]; [apply Hsame|].
    exists ""; now rewrite append_nil_r. }
  destruct (_ || _).
  { destruct (contains ";" _); [| intros [= <-]; apply Hsame].
    intros H. rewrite (end_of_alter_keeps_output _ _ _ _ H). apply Hsame. }
  destruct (startswith "CREATE INDEX" _); intros [= <-]; now eexists.
Qed.

(** X7: the output file only grows: whatever the lines, a run that does not
    raise ends with the output it started from, followed by what it
    emitted.  Nothing that was emitted is changed afterwards. *)
Theorem X7_output_only_grows (lines : list string) :
  forall st st',
    for_each step st lines = Ok st' ->
    exists text, outfile st' = outfile st ++ text.
Proof.
  induction lines as [|l lines IH]; intros st st' H; cbn [for_each] in H.
  - injection H as <-. exists "". now rewrite append_nil_r.
  - destruct (step st l) as [st1|e] eqn:E; cbn [bind] in H; [| discriminate].
    destruct (step_extends _ _ _ E) as [t1 H1].
    destruct (IH _ _ H) as [t2 H2].
    exists (t1 ++ t2). now rewrite H2, H1, append_assoc.
Qed.

(** X8: the lines that the two filters drop leave no trace: a run over the
    lines is the run over the kept ones. *)
Theorem X8_dropped_lines_leave_no_trace (lines : list string) :
  forall st,
    for_each step st lines = for_each step st (filter kept lines).
Proof.
  induction lines as [|l lines IH]; intros st; [reflexivity|].
  cbn [for_each filter]. destruct (kept l) eqn:Hk.
  - cbn [for_each]. destruct (step st l); [apply IH | reflexivity].
  - rewrite (step_dropped _ _ Hk). apply IH.
Qed.

Lemma dict_set_fresh (d : dict) (k : string) (v : list string) :
  ~ In k (keys d) -> dict_set d k v = (d ++ [(k, v)])%list.
Proof.
  induction d as [|[k' v'] d IH]; intros H; [reflexivity|].
  cbn [dict_set]. destruct (String.eqb k' k) eqn:E.
  - apply String.eqb_eq in E. subst. exfalso. apply H. now left.
  - cbn [app]. f_equal. apply IH. intros Hin. apply H. now right.
Qed.

Lemma body_buffered (d : dict) (t : string) (body : list string) :
  ~ In t (keys d) ->
  forall buf st,
    create_table_statements st = (d ++ [(t, buf)])%list ->
    forallb inner body = true ->
    for_each step st body
    = Ok (mkState (d ++ [(t, buf ++ map rewrite_line body)])%list
                  (alter_table_buffer st) (outfile st)).
Proof.
  intros Ht. induction body as [|l body IH]; intros buf st Hd Hb.
  - cbn [for_each map]. rewrite app_nil_r, <- Hd. now destruct st.
  - cbn [forallb] in Hb. apply andb_true_iff in Hb as [Hl Hb].
    unfold inner in Hl. apply andb_true_iff in Hl as [Hl Hc].
    apply andb_true_iff in Hl as [Hk Ho].
    apply negb_true_iff in Ho, Hc.
    cbn [for_each]. rewrite (step_pending _ _ _ _ _ Hd Ht Hk Ho), Hc.
    cbn [bind].
    rewrite (IH (buf ++ [rewrite_line l])%list
               (mkState (d ++ [(t, buf ++ [rewrite_line l])])%list
                        (alter_table_buffer st) (outfile st))
               eq_refl Hb).
    cbn [alter_table_buffer outfile map]. now rewrite <- app_assoc.
Qed.

(** X9: a table definition whose lines are all kept is emitted whole when
    its terminator arrives: the output grows by the rewritten lines, from
    the CREATE TABLE line to the terminator, and the pending tables are
    those of before. *)
Theorem X9_block_emitted_whole (st : state) (t open_line close_line : string)
    (body : list string) :
  ~ In t (keys (create_table_statements st)) ->
  kept open_line = true -> opens_table open_line = true ->
  Re.search Re.create_table_at (rewrite_line open_line) = Some t ->
  forallb inner body = true ->
  kept close_line = true -> opens_table close_line = false ->
  closes_table close_line = true ->
  for_each step st (open_line :: body ++ [close_line])%list
  = Ok (mkState (create_table_statements st) (alter_table_buffer st)
          (outfile st
           ++ join (map rewrite_line (open_line :: body ++ [close_line])%list))).
Proof.
  intros Ht Hk Ho Hname Hbody Hkc Hoc Hcc.
  destruct (kept_inv _ Hk) as [Hdir Hopt]. unfold opens_table in Ho.
  cbn [for_each]. unfold step at 1, Rewriter.step.
  rewrite Hdir, Hopt, Ho, Hname. cbn [bind].
  rewrite (dict_set_fresh _ _ _ Ht), for_each_app.
  rewrite (body_buffered _ _ _ Ht [rewrite_line open_line]
             (mkState (create_table_statements st ++ [(t, [rewrite_line open_line])])%list
                      (alter_table_buffer st) (outfile st))
             eq_refl Hbody).
  cbn [bind for_each alter_table_buffer outfile].
  rewrite (step_pending
             (mkState (create_table_statements st
                       ++ [(t, [rewrite_line open_line] ++ map rewrite_line body)])%list
                      (alter_table_buffer st) (outfile st))
             _ _ _ _ eq_refl Ht Hkc Hoc), Hcc. cbn [bind].
  cbn [alter_table_buffer outfile map]. rewrite map_app.
  reflexivity.
Qed.

Lemma last_key_some (d : dict) :
  is_empty_dict d = false -> exists k, last_key d = Some k.
Proof.
  induction d as [|[k v] d IH]; [discriminate|]. intros _.
  destruct d as [|kv d]; [now exists k|].
  destruct (IH eq_refl) as [k' Hk']. exists k'. exact Hk'.
Qed.

Lemma dict_set_not_empty (d : dict) (k : string) (v : list string) :
  is_empty_dict (dict_set d k v) = false.
Proof.
  destruct d as [|[k' v'] d]; [reflexivity|].
  cbn [dict_set]. now destruct (String.eqb k' k).
Qed.

Lemma step_swallowed (st : state) (line : string) :
  is_empty_dict (create_table_statements st) = false ->
  closes_table line = false ->
  match step st line with
  | Ok st' =>
      outfile st' = outfile st /\
      alter_table_buffer st' = alter_table_buffer st /\
      is_empty_dict (create_table_statements st') = false
  | Raise e => e = AttributeError
  end.
Proof.
  intros Hd Hc. unfold closes_table in Hc. unfold step, Rewriter.step.
  destruct (is_directive line); [now repeat split|].
  destruct (has_table_option _); [now repeat split|].
  destruct (startswith "CREATE TABLE" _).
  { destruct (Re.search _ _); [| reflexivity].
    repeat split. apply dict_set_not_empty. }
  rewrite Hc, Hd. cbn [andb negb].
  destruct (last_key_some _ Hd) as [k ->].
  repeat split. apply dict_set_not_empty.
Qed.

(** X10: while a table definition is pending and no line starts with the
    terminator, nothing is emitted, to the end of the input: every line is
    swallowed, whatever it is, and the only way out is the [AttributeError]
    of a CREATE TABLE line without a name. *)
Theorem X10_unterminated_block_swallows (lines : list string) :
  forall st,
    is_empty_dict (create_table_statements st) = false ->
    forallb (fun l => negb (closes_table l)) lines = true ->
    match for_each step st lines with
    | Ok st' =>
        outfile st' = outfile st /\
        alter_table_buffer st' = alter_table_buffer st /\
        is_empty_dict (create_table_statements st') = false
    | Raise e => e = AttributeError
    end.
Proof.
  induction lines as [|l lines IH]; intros st Hd Hl; [now repeat split|].
  cbn [forallb] in Hl. apply andb_true_iff in Hl as [Hc Hl].
  apply negb_true_iff in Hc. cbn [for_each].
  pose proof (step_swallowed st l Hd Hc) as Hs.
  destruct (step st l) as [st1|e]; cbn [bind]; [| exact Hs].
  destruct Hs as [Ho [Ha Hd1]].
  pose proof (IH st1 Hd1 Hl) as H.
  destruct (for_each step st1 lines) as [st2|e]; [| exact H].
  destruct H as [Ho2 [Ha2 Hd2]]. repeat split; congruence.
Qed.

(** X11: on lines that start neither a table definition nor an ALTER TABLE
    statement, with nothing pending, the rewriter works line by line and
    never raises: the output grows by what each line emits on its own. *)
Theorem X11_plain_lines_line_by_line (lines : list string) :
  forall st,
    create_table_statements st = [] -> alter_table_buffer st = "" ->
    forallb plain lines = true ->
    for_each step st lines
    = Ok (mkState [] "" (outfile st ++ join (map emitted lines))).
Proof.
  induction lines as [|l lines IH]; intros st Hd Ha Hl.
  - cbn [for_each map join fold_right]. rewrite append_nil_r, <- Hd, <- Ha.
    now destruct st.
  - cbn [forallb] in Hl. apply andb_true_iff in Hl as [Hp Hl].
    cbn [for_each map join fold_right]. fold (join (map emitted lines)).
    destruct (kept l) eqn:Hk.
    + unfold plain in Hp. rewrite Hk in Hp. cbn [negb orb] in Hp.
      apply andb_true_iff in Hp as [Ho Hal].
      apply negb_true_iff in Ho, Hal.
      rewrite (step_plain _ _ Hd Ha Hk Ho Hal). cbn [bind].
      rewrite (IH (write st (emitted l))); try assumption.
      cbn [write outfile]. now rewrite append_assoc.
    + rewrite (step_dropped _ _ Hk). cbn [bind].
      rewrite (IH st Hd Ha Hl). unfold emitted. rewrite Hk. reflexivity.
Qed.

End WithWriter.

(** X7, witness. *)
Lemma X7_witness :
  exists text,
    outfile (mkState [] "" (emitted_t ++ "CREATE INDEX i ON t (name);" ++ nl ++ nl))
    = outfile (mkState [] "" emitted_t) ++ text.
Proof.
  exact (X7_output_only_grows unbuffered
           ["SET search_path = public;" ++ nl;
            "CREATE INDEX i ON t USING btree (name);" ++ nl]
           (mkState [] "" emitted_t) _ eq_refl).
Defined.

Lemma X9_witness :
  for_each (step unbuffered) init create_t = Ok (mkState [] "" emitted_t).
Proof.
  exact (X9_block_emitted_whole unbuffered init "t"
           ("CREATE TABLE t (" ++ nl) (");" ++ nl)
           ["  id SERIAL," ++ nl; "  name text" ++ nl]
           (fun H => H) eq_refl eq_refl eq_refl eq_refl eq_refl eq_refl
           eq_refl).
Defined.

Lemma X10_witness :
  match for_each (step unbuffered) pending_t
          ["  id integer" ++ nl; ")" ++ nl; "WITH (OIDS=FALSE);" ++ nl;
           "INSERT INTO t VALUES (1);" ++ nl;
           "CREATE INDEX i ON t USING btree (id);" ++ nl]
  with
  | Ok st' =>
      outfile st' = outfile pending_t /\
      alter_table_buffer st' = alter_table_buffer pending_t /\
      is_empty_dict (create_table_statements st') = false
  | Raise e => e = AttributeError
  end.
Proof.
  exact (X10_unterminated_block_swallows unbuffered
           ["  id integer" ++ nl; ")" ++ nl; "WITH (OIDS=FALSE);" ++ nl;
            "INSERT INTO t VALUES (1);" ++ nl;
            "CREATE INDEX i ON t USING btree (id);" ++ nl]
           pending_t eq_refl eq_refl).
Defined.

Lemma X11_witness :
  for_each (step unbuffered) init
    ["SET client_encoding = 'UTF8';" ++ nl;
     "INSERT INTO public.t VALUES (1, 'a');" ++ nl;
     "CREATE INDEX i ON public.t USING btree (id);" ++ nl]
  = Ok (mkState [] ""
          ("INSERT INTO t VALUES (1, 'a');" ++ nl
           ++ "CREATE INDEX i ON t (id);" ++ nl ++ nl)).
Proof.
  exact (X11_plain_lines_line_by_line unbuffered
           ["SET client_encoding = 'UTF8';" ++ nl;
            "INSERT INTO public.t VALUES (1, 'a');" ++ nl;
            "CREATE INDEX i ON public.t USING btree (id);" ++ nl]
           init eq_refl eq_refl eq_refl).
Defined.

End RunSpec.

(* ================================================================== *)
(** * More on whole runs of the executor *)

Module ImportSpec.
Import PyStr Lines StrFacts RewriterFacts Executor ExecutorSpec.

Section WithStore.

Variable Store : Type.
Variable execute : Store -> string -> result sqlite_error Store.
Let step := step execute.

Lemma execute_current_raises (st : state Store) (e : sqlite_error) :
  execute_current execute st = Raise e -> is_operational e = false.
Proof.
  unfold execute_current.
  destruct (execute (conn st) (current_command st)) as [db|[d|d|d]];
    intros [= <-]; reflexivity.
Qed.

Lemma step_raises (st : state Store) (line : string) (e : sqlite_error) :
  step st line = Raise e -> is_operational e = false.
Proof.
  unfold step, Executor.step.
  destruct (is_skipped (strip line)); [discriminate|].
  destruct (starts_command (strip line) && negb (is_empty (current_command st))).
  - destruct (execute_current execute st) as [st1|e1] eqn:E; cbn [bind].
    + cbn [current_command]. rewrite buffer_never_terminated. discriminate.
    + intros [= <-]. exact (execute_current_raises _ _ E).
  - cbn [bind current_command]. rewrite buffer_never_terminated. discriminate.
Qed.

(** X12: no [OperationalError] ever leaves the loop: an exception that ends
    the import is of another class. *)
Theorem X12_operational_error_never_escapes (lines : list string) :
  forall st e,
    for_each step st lines = Raise e -> is_operational e = false.
Proof.
  induction lines as [|l lines IH]; intros st e H; cbn [for_each] in H;
    [discriminate|].
  destruct (step st l) as [st1|e1] eqn:E; cbn [bind] in H.
  - exact (IH _ _ H).
  - injection H as <-. exact (step_raises _ _ _ E).
Qed.

Lemma step_leaves_text (st st' : state Store) (line : string) :
  is_skipped (strip line) = false ->
  step st line = Ok st' -> is_empty (current_command st') = false.
Proof.
  intros Hs. unfold step, Executor.step. rewrite Hs.
  destruct (starts_command (strip line) && negb (is_empty (current_command st))).
  - destruct (execute_current execute st) as [st1|e1]; cbn [bind];
      [| discriminate].
    cbn [current_command]. rewrite buffer_never_terminated.
    intros [= <-]. cbn [current_command].
    apply is_empty_app. now destruct (strip line).
  - cbn [bind current_command]. rewrite buffer_never_terminated.
    intros [= <-]. cbn [current_command].
    apply is_empty_app. now destruct (strip line).
Qed.

Lemma step_keeps_text (st st' : state Store) (line : string) :
  is_empty (current_command st) = false ->
  step st line = Ok st' -> is_empty (current_command st') = false.
Proof.
  intros Hb H. destruct (is_skipped (strip line)) eqn:Hs.
  - unfold step in H. rewrite (step_skips _ _ _ _ Hs) in H.
    now injection H as <-.
  - exact (step_leaves_text _ _ _ Hs H).
Qed.

Lemma run_keeps_text (lines : list string) :
  forall st st',
    is_empty (current_command st) = false ->
    for_each step st lines = Ok st' ->
    is_empty (current_command st') = false.
Proof.
  induction lines as [|l lines IH]; intros st st' Hb H; cbn [for_each] in H.
  - now injection H as <-.
  - destruct (step st l) as [st1|e] eqn:E; cbn [bind] in H; [| discriminate].
    exact (IH _ _ (step_keeps_text _ _ _ Hb E) H).
Qed.

(** X13: an import that reads at least one line that is no blank line and
    no comment ends with text left in the buffer, which the function then
    discards: the tail of every such file is never executed. *)
Theorem X13_import_leaves_text_unexecuted (lines : list string) :
  forall st st',
    existsb (fun l => negb (is_skipped (strip l))) lines = true ->
    for_each step st lines = Ok st' ->
    is_empty (current_command st') = false.
Proof.
  induction lines as [|l lines IH]; intros st st' Hl H; [discriminate|].
  cbn [for_each] in H. cbn [existsb] in Hl.
  destruct (step st l) as [st1|e] eqn:E; cbn [bind] in H; [| discriminate].
  destruct (is_skipped (strip l)) eqn:Hs.
  - cbn [negb orb] in Hl. exact (IH _ _ Hl H).
  - exact (run_keeps_text _ _ _ (step_leaves_text _ _ _ Hs E) H).
Qed.

(** X14: blank lines and comment lines leave no trace: an import of the
    lines is the import of the others. *)
Theorem X14_skipped_lines_leave_no_trace (lines : list string) :
  forall st,
    for_each step st lines
    = for_each step st
        (filter (fun l => negb (is_skipped (strip l))) lines).
Proof.
  induction lines as [|l lines IH]; intros st; [reflexivity|].
  cbn [for_each filter]. destruct (is_skipped (strip l)) eqn:Hs; cbn [negb].
  - unfold step at 1. rewrite (step_skips _ _ _ _ Hs). apply IH.
  - cbn [for_each]. destruct (step st l); [apply IH | reflexivity].
Qed.

End WithStore.

Lemma X12_witness :
  is_operational (IntegrityError "UNIQUE constraint failed: t.id") = false.
Proof.
  exact (X12_operational_error_never_escapes (list string) keyed
           ["INSERT INTO t VALUES (1);" ++ nl; "INSERT INTO t VALUES (1);" ++ nl;
            "INSERT INTO t VALUES (2);" ++ nl]
           (mkState "" [] []) _ eq_refl).
Defined.

Lemma X13_witness :
  is_empty (current_command
              (mkState "INSERT INTO t VALUES (2); "
                       ["INSERT INTO t VALUES (1); "] [])) = false.
Proof.
  exact (X13_import_leaves_text_unexecuted (list string) recording
           ["-- data" ++ nl; "INSERT INTO t VALUES (1);" ++ nl;
            "INSERT INTO t VALUES (2);" ++ nl]
           (mkState "" [] []) _ eq_refl eq_refl).
Defined.

Lemma step_command_recorded (st : state (list string)) (line : string) :
  is_skipped (strip line) = false ->
  starts_command (strip line) = true ->
  is_empty (current_command st) = false ->
  Executor.step recording st line
  = Ok (mkState (strip line ++ " ") (conn st ++ [current_command st])%list
                (stdout st)).
Proof.
  intros Hs Hk Hb. unfold Executor.step. rewrite Hs, Hk, Hb.
  cbn [negb andb]. unfold execute_current, recording. cbn [bind].
  cbn [current_command conn stdout].
  change ("" ++ (strip line ++ " ")) with (strip line ++ " ").
  now rewrite endswith_space.
Qed.

Lemma executions_counted (lines : list string) :
  forall st,
    is_empty (current_command st) = false ->
    exists st',
      for_each (Executor.step recording) st lines = Ok st' /\
      List.length (conn st')
      = List.length (conn st) + List.length (filter command_line lines).
Proof.
  induction lines as [|l lines IH]; intros st Hb.
  - exists st. split; [reflexivity | cbn; lia].
  - cbn [for_each filter]. unfold command_line at 1.
    destruct (is_skipped (strip l)) eqn:Hs.
    + rewrite (step_skips _ _ _ _ Hs). cbn [bind negb andb]. exact (IH _ Hb).
    + destruct (starts_command (strip l)) eqn:Hk; cbn [negb andb].
      * rewrite (step_command_recorded _ _ Hs Hk Hb). cbn [bind].
        destruct (IH (mkState (strip l ++ " ")
                              (conn st ++ [current_command st])%list
                              (stdout st)))
          as [st' [Hrun Hlen]].
        { cbn [current_command]. apply is_empty_app.
          now destruct (strip l). }
        exists st'. split; [exact Hrun|]. rewrite Hlen.
        cbn [conn List.length]. rewrite length_app. cbn [List.length]. lia.
      * rewrite (step_accumulates _ _ _ _ Hs Hk). cbn [bind].
        destruct (IH (mkState (current_command st ++ (strip l ++ " "))
                              (conn st) (stdout st)))
          as [st' [Hrun Hlen]].
        { cbn [current_command]. apply is_empty_app.
          apply is_empty_app. reflexivity. }
        exists st'. split; [exact Hrun | exact Hlen].
Qed.

(** X15: the executions of an import are counted by its lines: after the
    first line that is no blank line and no comment, each line that starts
    with a command keyword triggers one execution, and nothing else does. *)
Theorem X15_one_execution_per_later_command_line (first : string)
    (rest : list string) :
  is_skipped (strip first) = false ->
  exists st,
    import_lines recording [] (first :: rest) = Ok st /\
    List.length (conn st) = List.length (filter command_line rest).
Proof.
  intros Hs. unfold import_lines. cbn [for_each].
  rewrite (step_first _ _ _ _ _ Hs). cbn [bind].
  destruct (executions_counted rest (mkState (strip first ++ " ") [] []))
    as [st [Hrun Hlen]].
  { cbn [current_command]. apply is_empty_app. reflexivity. }
  exists st. split; [exact Hrun | exact Hlen].
Qed.

Lemma X15_witness :
  exists st,
    import_lines recording []
      ["CREATE TABLE t (" ++ nl; "  id INTEGER" ++ nl; ");" ++ nl;
       "INSERT INTO t VALUES (1);" ++ nl; "INSERT INTO t VALUES (2);" ++ nl]
    = Ok st /\
    List.length (conn st) = 2.
Proof.
  exact (X15_one_execution_per_later_command_line
           ("CREATE TABLE t (" ++ nl)
           ["  id INTEGER" ++ nl; ");" ++ nl;
            "INSERT INTO t VALUES (1);" ++ nl; "INSERT INTO t VALUES (2);" ++ nl]
           eq_refl).
Defined.

(** X21: a file in which no line after the first starts with a command
    keyword is imported without a single execution, whatever the database:
    its statement is accumulated and left in the buffer. *)
Theorem X21_single_statement_file_imports_nothing (Store : Type)
    (execute : Store -> string -> result sqlite_error Store) (db : Store)
    (first : string) (rest : list string) :
  (forall l, In l rest -> starts_command (strip l) = false) ->
  exists buffer,
    import_lines execute db (first :: rest) = Ok (mkState buffer db []).
Proof. apply lone_statement_never_executed. Qed.

Lemma X21_witness :
  exists buffer,
    import_lines keyed []
      ["INSERT INTO t VALUES" ++ nl; "  (1)," ++ nl; "  (1);" ++ nl]
    = Ok (mkState buffer [] []).
Proof.
  refine (X21_single_statement_file_imports_nothing (list string) keyed []
            ("INSERT INTO t VALUES" ++ nl) ["  (1)," ++ nl; "  (1);" ++ nl] _).
  intros l [<- | [<- | []]]; reflexivity.
Defined.

End ImportSpec.

(* ================================================================== *)
(** * The two patterns of the rewriter *)

Module RegexSpec.
Import PyStr Terms Lines StrFacts RewriterFacts Rewriter.

Lemma strip_prefix_app (p r : string) : strip_prefix p (p ++ r) = Some r.
Proof.
  induction p as [|a p IH]; [reflexivity|].
  cbn [append strip_prefix]. now rewrite Ascii.eqb_refl.
Qed.

Lemma strip_prefix_none (p s : string) :
  startswith p s = false -> strip_prefix p s = None.
Proof.
  revert s; induction p as [|a p IH]; intros s H; [discriminate|].
  destruct s as [|b s]; [reflexivity|].
  cbn [startswith strip_prefix] in *.
  destruct (Ascii.eqb a b); [now apply IH | reflexivity].
Qed.

Lemma span_word_app (w rest : string) :
  all_word w = true ->
  Re.is_word_opt (String.get 0 rest) = false ->
  Re.span_word (w ++ rest) = (w, rest).
Proof.
  intros Hw Hr. induction w as [|c w IH].
  - destruct rest as [|d rest]; [reflexivity|].
    cbn [append Re.span_word]. cbn in Hr. now rewrite Hr.
  - cbn [all_word] in Hw. apply andb_true_iff in Hw as [Hc Hw].
    cbn [append Re.span_word]. now rewrite Hc, (IH Hw).
Qed.

Lemma search_head {A : Type} (m : string -> option A) (s : string) (x : A) :
  m s = Some x -> Re.search m s = Some x.
Proof. intros H. destruct s; cbn [Re.search]; now rewrite H. Qed.

(** X18: in a line that starts with [CREATE TABLE ] and a name, the table
    is known by the word characters that follow, up to the first other
    character: what comes behind a dot or a hyphen is no part of the key. *)
Theorem X18_table_name_is_leading_word (name rest : string) :
  is_empty name = false ->
  all_word name = true ->
  Re.is_word_opt (String.get 0 rest) = false ->
  Re.search Re.create_table_at ("CREATE TABLE " ++ name ++ rest) = Some name.
Proof.
  intros Hne Hw Hr. apply search_head. unfold Re.create_table_at.
  rewrite strip_prefix_app, (span_word_app _ _ Hw Hr). now rewrite Hne.
Qed.

Lemma X18_witness :
  Re.search Re.create_table_at ("CREATE TABLE sales.orders (" ++ nl)
  = Some "sales".
Proof.
  exact (X18_table_name_is_leading_word "sales" (".orders (" ++ nl)
           eq_refl eq_refl eq_refl).
Defined.

Lemma search_alter_absent (s : string) :
  contains "ALTER TABLE " s = false ->
  Re.search Re.alter_pkey_at s = None.
Proof.
  induction s as [|c s IH]; intros H.
  - reflexivity.
  - cbn [Re.search]. unfold Re.alter_pkey_at at 1.
    rewrite (strip_prefix_none _ _ (contains_head _ _ H)).
    exact (IH (contains_tail _ _ _ H)).
Qed.

(** The statement in the form [ALTER TABLE ONLY ...] matches nowhere. *)
Lemma alter_only_unmatched (rest : string) :
  contains "ALTER TABLE " rest = false ->
  startswith "ADD CONSTRAINT " rest = false ->
  Re.search Re.alter_pkey_at ("ALTER TABLE ONLY " ++ rest) = None.
Proof.
  intros Hc Hs.
  assert (Htail : contains "ALTER TABLE " ("LTER TABLE ONLY " ++ rest) = false)
    by (cbn; exact Hc).
  change ("ALTER TABLE ONLY " ++ rest)
    with (String "A" ("LTER TABLE ONLY " ++ rest)).
  cbn [Re.search]. rewrite (search_alter_absent _ Htail).
  unfold Re.alter_pkey_at.
  change (String "A" ("LTER TABLE ONLY " ++ rest))
    with ("ALTER TABLE " ++ ("ONLY" ++ (" " ++ rest))).
  rewrite strip_prefix_app.
  rewrite (span_word_app "ONLY" (" " ++ rest) eq_refl eq_refl).
  cbn [is_empty].
  change (strip_prefix " ADD CONSTRAINT " (" " ++ rest))
    with (strip_prefix "ADD CONSTRAINT " rest).
  now rewrite (strip_prefix_none _ _ Hs).
Qed.

(** X19: a completed ALTER TABLE statement that is no primary-key
    constraint in the form of the pattern, or whose table has no CREATE
    TABLE line in what is read back from the output file, never raises: it
    is dropped, the buffer is emptied and the rest of the state is as it
    was. *)
Theorem X19_unmatched_alter_dropped (flushed : string -> nat) (st : state)
    (buffer : string) :
  match Re.search Re.alter_pkey_at buffer with
  | None => True
  | Some (table_name, _) =>
      absent table_name
        (readlines (take (flushed (outfile st)) (outfile st))) = true
  end ->
  end_of_alter flushed st buffer
  = Ok (mkState (create_table_statements st) "" (outfile st)).
Proof. apply end_of_alter_dropped. Qed.

Lemma X19_witness :
  end_of_alter unbuffered (mkState [] "" emitted_t)
    "ALTER TABLE u ADD CONSTRAINT u_pkey PRIMARY KEY (id);"
  = Ok (mkState [] "" emitted_t).
Proof.
  exact (X19_unmatched_alter_dropped unbuffered (mkState [] "" emitted_t)
           "ALTER TABLE u ADD CONSTRAINT u_pkey PRIMARY KEY (id);" eq_refl).
Defined.

(** X20: a statement in the form [ALTER TABLE ONLY ...], the form in which
    pg_dump writes its constraints, is never taken for a primary-key
    constraint: it is dropped, whatever the table and the output. *)
Theorem X20_alter_table_only_dropped (flushed : string -> nat) (st : state)
    (rest : string) :
  contains "ALTER TABLE " rest = false ->
  startswith "ADD CONSTRAINT " rest = false ->
  end_of_alter flushed st ("ALTER TABLE ONLY " ++ rest)
  = Ok (mkState (create_table_statements st) "" (outfile st)).
Proof.
  intros Hc Hs. unfold end_of_alter.
  now rewrite (alter_only_unmatched _ Hc Hs).
Qed.

Lemma X20_witness :
  end_of_alter unbuffered (mkState [] "" emitted_t)
    "ALTER TABLE ONLY t ADD CONSTRAINT t_pkey PRIMARY KEY (id);"
  = Ok (mkState [] "" emitted_t).
Proof.
  exact (X20_alter_table_only_dropped unbuffered (mkState [] "" emitted_t)
           "t ADD CONSTRAINT t_pkey PRIMARY KEY (id);" eq_refl eq_refl).
Defined.

End RegexSpec.
